(** * Job matcher: scoring and ranking of candidates against a job description

    Shallow embedding of [src/job_matcher.py] (class [JobMatcher]) and of the
    record types and derived fields of [src/cv_schema.py].

    Modelling conventions.
    - A Python [str] that the matcher reads is a [string]; each character is
      a code point below 256.  Case folding, whitespace and digits follow
      Python on these code points.  The explanation that the matcher writes
      holds code points above 255 and is a [text], a list of code points.
    - A Python [int] is a [Z] (unbounded).  Conversions between [int] and
      [str] raise [ValueError] beyond 4300 digits, the default limit of
      CPython 3.11.
    - A Python [float] is the rational number it approximates ([Q], compared
      with [==]): the rounding of the scores is not modelled.  Two float
      effects are kept: converting or dividing an [int] whose result does not
      fit a double raises [OverflowError], and an [int] that is printed as a
      float is rounded to a double first.
    - Exceptions are values of [result]; [try ... except] is a match on it.
    - The sentence-embedding model, the wall clock and the iteration order of
      a [set] of strings (it depends on the hash seed of the process) are
      parameters of the [Matcher] section. *)

From Stdlib Require Import Bool List Arith ZArith QArith Qabs Lia Lqa.
From Stdlib Require Import Ascii String Permutation Sorted.
From Stdlib Require Import DecimalString.
From Stdlib Require DecimalPos DecimalZ.
Import ListNotations.

Open Scope string_scope.
Open Scope Z_scope.

(** ** Exceptions *)

Inductive exn : Type :=
| ValidationError
| ValueError
| OverflowError
| ZeroDivisionError.

Inductive result (A : Type) : Type :=
| Ok (a : A)
| Raise (e : exn).

Arguments Ok {A} a.
Arguments Raise {A} e.

Definition bind {A B : Type} (m : result A) (f : A -> result B) : result B :=
  match m with
  | Ok a => f a
  | Raise e => Raise e
  end.

(** The same outcome with [f] applied to the value returned. *)
Definition result_map {A B : Type} (f : A -> B) (m : result A) : result B :=
  match m with
  | Ok a => Ok (f a)
  | Raise e => Raise e
  end.

Notation "x <- m ;; k" := (bind m (fun x => k))
  (at level 61, m at next level, right associativity).
Notation "' p <- m ;; k" := (bind m (fun x => let p := x in k))
  (at level 61, p pattern, m at next level, right associativity).

(** ** Python string primitives *)

Module PyStr.

Definition code (c : ascii) : N := N_of_ascii c.

Definition in_range (lo hi : N) (c : ascii) : bool :=
  (lo <=? code c)%N && (code c <=? hi)%N.

(** [str.isspace] on one character; also the class [\s] of [re]. *)
Definition is_space (c : ascii) : bool :=
  in_range 9 13 c || in_range 28 32 c
  || (code c =? 133)%N || (code c =? 160)%N.

(** The class [\d] of [re]. *)
Definition is_digit (c : ascii) : bool := in_range 48 57 c.

Definition is_upper (c : ascii) : bool :=
  in_range 65 90 c || (in_range 192 222 c && negb (code c =? 215)%N).

Definition lower_char (c : ascii) : ascii :=
  if is_upper c then ascii_of_N (code c + 32) else c.

(** [s.lower()] *)
Fixpoint lower (s : string) : string :=
  match s with
  | EmptyString => EmptyString
  | String c s' => String (lower_char c) (lower s')
  end.

Definition len (s : string) : Z := Z.of_nat (String.length s).

Definition is_empty (s : string) : bool :=
  match s with
  | EmptyString => true
  | String _ _ => false
  end.

(** [sub in s]: [sub] occurs in [s] as a substring. *)
Fixpoint contains (sub s : string) : bool :=
  String.prefix sub s
  || match s with
     | EmptyString => false
     | String _ s' => contains sub s'
     end.

(** Every character of [s] is in the class [cls]. *)
Fixpoint all_of (cls : ascii -> bool) (s : string) : bool :=
  match s with
  | EmptyString => true
  | String c s' => cls c && all_of cls s'
  end.

(** [x in l] for a list of strings. *)
Definition mem (x : string) (l : list string) : bool :=
  existsb (String.eqb x) l.

(** [s.split()]: the maximal runs of non-whitespace characters.  [cur] is
    the run being read. *)
Fixpoint split_from (cur s : string) : list string :=
  match s with
  | EmptyString => if is_empty cur then [] else [cur]
  | String c s' =>
      if is_space c
      then (if is_empty cur then split_from "" s'
            else cur :: split_from "" s')
      else split_from (cur ++ String c "") s'
  end.

Definition split (s : string) : list string := split_from "" s.

(** [s.split(sep)[0]] for a one-character separator. *)
Fixpoint before_sep (sep : ascii) (s : string) : string :=
  match s with
  | EmptyString => EmptyString
  | String c s' =>
      if Ascii.eqb c sep then EmptyString else String c (before_sep sep s')
  end.

Fixpoint has_char (sep : ascii) (s : string) : bool :=
  match s with
  | EmptyString => false
  | String c s' => Ascii.eqb c sep || has_char sep s'
  end.

(** [sep.join(l)] *)
Definition join (sep : string) (l : list string) : string :=
  String.concat sep l.

(** [str(n)] for an int. *)
Definition of_int (n : Z) : string := NilZero.string_of_int (Z.to_int n).

(** *** [int(s)]

    Whitespace accepted around the literal, one optional sign, then decimal
    digits in which single underscores may separate digits.  A literal with
    more than 4300 digits is refused. *)

(** [sys.int_info.default_max_str_digits] *)
Definition MAX_STR_DIGITS : nat := 4300.

Fixpoint count_digits (s : string) : nat :=
  match s with
  | EmptyString => O
  | String c s' => if is_digit c then S (count_digits s') else count_digits s'
  end.

Definition is_int_space (c : ascii) : bool :=
  in_range 9 13 c || (code c =? 32)%N || (code c =? 133)%N
  || (code c =? 160)%N.

Fixpoint lstrip (s : string) : string :=
  match s with
  | String c s' => if is_int_space c then lstrip s' else s
  | EmptyString => EmptyString
  end.

Fixpoint all_int_space (s : string) : bool :=
  match s with
  | EmptyString => true
  | String c s' => is_int_space c && all_int_space s'
  end.

Definition digit_val (c : ascii) : Z := Z.of_N (code c) - 48.

(** Reads the digits after the sign.  [acc] is the value read so far,
    [prev_digit] tells whether the previous character was a digit (an
    underscore is only legal after a digit and before a digit). *)
Fixpoint int_digits (acc : Z) (prev_digit : bool) (s : string) : option Z :=
  match s with
  | EmptyString => if prev_digit then Some acc else None
  | String c s' =>
      if is_digit c then int_digits (10 * acc + digit_val c) true s'
      else if Ascii.eqb c "_" then
        (if prev_digit
         then match s' with
              | String d _ => if is_digit d then int_digits acc false s' else None
              | EmptyString => None
              end
         else None)
      else if prev_digit && all_int_space s then Some acc
      else None
  end.

(** The value of the literal, whatever its length. *)
Definition parse_int (s : string) : option Z :=
  match lstrip s with
  | String "+" s' => int_digits 0 false s'
  | String "-" s' => option_map Z.opp (int_digits 0 false s')
  | s' => int_digits 0 false s'
  end.

(** [int(s)]; [None] stands for [ValueError]. *)
Definition to_int (s : string) : option Z :=
  match parse_int s with
  | Some n => if (MAX_STR_DIGITS <? count_digits s)%nat then None else Some n
  | None => None
  end.

End PyStr.

(** ** The fragment of [re] used by the requirement extractor

    A backtracking matcher in continuation-passing style: quantifiers are
    greedy and give back characters when the rest of the pattern fails, as in
    [re].  Repetition is only needed over character classes.  The pattern has
    at most one capturing group; its text is threaded through the match. *)

Module Re.

Inductive regex : Type :=
| Lit (s : string)                 (* literal text *)
| Star (cls : ascii -> bool)       (* cls*  *)
| Plus (cls : ascii -> bool)       (* cls+  *)
| Opt (r : regex)                  (* r?  *)
| Seq (r1 r2 : regex)              (* r1 r2 *)
| Group (r : regex).               (* ( r ), group 1 *)

(** No capturing group occurs in [r]. *)
Fixpoint group_free (r : regex) : bool :=
  match r with
  | Lit _ | Star _ | Plus _ => true
  | Opt r1 => group_free r1
  | Seq r1 r2 => group_free r1 && group_free r2
  | Group _ => false
  end.

(** The first [n] characters of [s]. *)
Fixpoint take (n : nat) (s : string) : string :=
  match n, s with
  | S n', String c s' => String c (take n' s')
  | _, _ => EmptyString
  end.

Fixpoint drop (n : nat) (s : string) : string :=
  match n, s with
  | S n', String _ s' => drop n' s'
  | _, _ => s
  end.

(** What [r] consumed when it was entered at [s] and left at [rest]. *)
Definition consumed (s rest : string) : string :=
  take (String.length s - String.length rest) s.

(** Greedy [cls*]: the longest run first, then shorter ones. *)
Fixpoint star {R : Type} (cls : ascii -> bool) (s : string)
         (k : string -> option R) : option R :=
  match s with
  | String c s' =>
      if cls c
      then match star cls s' k with
           | Some r => Some r
           | None => k s
           end
      else k s
  | EmptyString => k s
  end.

(** [run r s g k]: match [r] at the start of [s] with group text [g], then
    continue with [k] on the rest of the input. *)
Fixpoint run {R : Type} (r : regex) (s : string) (g : string)
         (k : string -> string -> option R) : option R :=
  match r with
  | Lit l =>
      if String.prefix l s then k (drop (String.length l) s) g else None
  | Star cls => star cls s (fun rest => k rest g)
  | Plus cls =>
      match s with
      | String c s' => if cls c then star cls s' (fun rest => k rest g) else None
      | EmptyString => None
      end
  | Opt r1 =>
      match run r1 s g k with
      | Some x => Some x
      | None => k s g
      end
  | Seq r1 r2 => run r1 s g (fun rest g' => run r2 rest g' k)
  | Group r1 => run r1 s g (fun rest _ => k rest (consumed s rest))
  end.

(** [re.match(r, s)]: the text of group 1 when [r] matches at the start. *)
Definition match_here (r : regex) (s : string) : option string :=
  run r s "" (fun _ g => Some g).

(** [re.search(r, s)]: the match at the leftmost position where there is
    one; the result is [match.group(1)]. *)
Fixpoint search (r : regex) (s : string) : option string :=
  match match_here r s with
  | Some g => Some g
  | None =>
      match s with
      | String _ s' => search r s'
      | EmptyString => None
      end
  end.

(** Every position of [s] where [r] matches, with the group text found
    there. *)
Fixpoint occurrences (r : regex) (s : string) : list string :=
  match match_here r s with
  | Some g => [g]
  | None => []
  end ++
  match s with
  | String _ s' => occurrences r s'
  | EmptyString => []
  end.

End Re.

(** ** Text with code points of any size *)

Definition text : Type := list N.

(** The code points of a string. *)
Fixpoint utext (s : string) : text :=
  match s with
  | EmptyString => []
  | String c s' => N_of_ascii c :: utext s'
  end.

(** [sep.join(parts)] on texts. *)
Fixpoint tjoin (sep : text) (parts : list text) : text :=
  match parts with
  | [] => []
  | [x] => x
  | x :: rest => (x ++ sep ++ tjoin sep rest)%list
  end.

(** ** Records of [cv_schema.py]

    Only the fields that the matcher reads are kept.  The field [name] of
    [Skill] is [skill_name] here, since [PersonalInfo] has a [name] too. *)

Record PersonalInfo : Type := {
  name : string;
  email : string;
  phone : string;
  location : string
}.

Record Skill : Type := {
  skill_name : string;
  category : string;
  proficiency : string
}.

Record Experience : Type := {
  job_title : string;
  company : string;
  start_date : string;
  end_date : string;
  description : string
}.

Record Education : Type := {
  degree : string;
  institution : string;
  field_of_study : string;
  graduation_year : string
}.

Record CVData : Type := {
  filename : string;
  raw_text : string;
  personal_info : PersonalInfo;
  skills : list Skill;
  experience : list Experience;
  education : list Education
}.

(** An element of [cv_data_list]: a dict that either validates against the
    [CVData] schema or makes the [CVData] constructor raise. *)
Inductive CVDict : Type :=
| ValidDict (cv : CVData)
| InvalidDict.

Definition CVData_of_dict (d : CVDict) : result CVData :=
  match d with
  | ValidDict cv => Ok cv
  | InvalidDict => Raise ValidationError
  end.

Record MatchResult : Type := {
  cv_filename : string;
  candidate_name : string;
  overall_score : Q;
  skill_match_score : Q;
  experience_match_score : Q;
  education_match_score : Q;
  explanation : text;
  matched_skills : list string;
  relevant_experience : list string;
  cv_data : CVDict
}.

(** ** Dicts with string keys

    A dict is the list of its items in insertion order; assigning to a key
    that is present keeps its position. *)

Fixpoint dict_get {V : Type} (k : string) (d : list (string * V)) : option V :=
  match d with
  | [] => None
  | (k', v) :: d' => if String.eqb k k' then Some v else dict_get k d'
  end.

Fixpoint dict_set {V : Type} (k : string) (v : V) (d : list (string * V))
  : list (string * V) :=
  match d with
  | [] => [(k, v)]
  | (k', v') :: d' =>
      if String.eqb k k' then (k, v) :: d' else (k', v') :: dict_set k v d'
  end.

Definition dict_keys {V : Type} (d : list (string * V)) : list string :=
  map fst d.

(** ** Methods of [CVData] that do not depend on the clock *)

(** [CVData.get_skills_by_category]: the list of a category is created when
    its first skill is met, then every skill name is appended to the list of
    its category. *)
Definition get_skills_by_category (cv : CVData) : list (string * list string) :=
  fold_left
    (fun by_category skill =>
       let by_category :=
         match dict_get (category skill) by_category with
         | None => dict_set (category skill) [] by_category
         | Some _ => by_category
         end in
       match dict_get (category skill) by_category with
       | Some names =>
           dict_set (category skill) (names ++ [skill_name skill])%list
             by_category
       | None => by_category
       end)
    (skills cv) [].

Definition newline : string := String "010"%char EmptyString.

Definition experience_line (e : Experience) : string :=
  let exp_text := "Experience: " ++ job_title e ++ " at " ++ company e in
  if PyStr.is_empty (description e) then exp_text
  else exp_text ++ " - " ++ description e.

Definition education_line (edu : Education) : string :=
  let edu_text := "Education: " ++ degree edu in
  let edu_text :=
    if PyStr.is_empty (institution edu) then edu_text
    else edu_text ++ " from " ++ institution edu in
  if PyStr.is_empty (field_of_study edu) then edu_text
  else edu_text ++ " in " ++ field_of_study edu.

(** [CVData.to_searchable_text] *)
Definition to_searchable_text (cv : CVData) : string :=
  let part_name :=
    if PyStr.is_empty (name (personal_info cv)) then []
    else ["Name: " ++ name (personal_info cv)] in
  let part_location :=
    if PyStr.is_empty (location (personal_info cv)) then []
    else ["Location: " ++ location (personal_info cv)] in
  let part_skills :=
    match skills cv with
    | [] => []
    | _ :: _ => ["Skills: " ++ PyStr.join ", " (map skill_name (skills cv))]
    end in
  PyStr.join newline
    (part_name ++ part_location ++ part_skills
       ++ map experience_line (experience cv)
       ++ map education_line (education cv))%list.

(** ** Numbers *)

(** The least magnitude that no longer rounds to a finite double. *)
Definition FLOAT_OVERFLOW : Z := 2 ^ 1024 - 2 ^ 970.

(** [a / b] on ints (true division). *)
Definition true_div (a b : Z) : result Q :=
  if b =? 0 then Raise ZeroDivisionError
  else if FLOAT_OVERFLOW * Z.abs b <=? Z.abs a then Raise OverflowError
  else Ok (inject_Z a / inject_Z b)%Q.

Definition Qltb (a b : Q) : bool := negb (Qle_bool b a).

(** [min(a, b)]: the first argument unless the second is smaller. *)
Definition py_min (a b : Q) : Q := if Qltb b a then b else a.

(** [max(l) if l else d] on ints. *)
Definition py_max_default (d : Z) (l : list Z) : Z :=
  match l with
  | [] => d
  | x :: l' => fold_left Z.max l' x
  end.

(** [float(n)] for an int below [FLOAT_OVERFLOW] in magnitude, as the integer
    it is equal to: [n] rounded to 53 significant bits, ties to even. *)
Definition round_to_double (n : Z) : Z :=
  let a := Z.abs n in
  let bits := Z.log2 a + 1 in
  if bits <=? 53 then n
  else
    let shift := bits - 53 in
    let q := Z.shiftr a shift in
    let r := a - Z.shiftl q shift in
    let half := Z.shiftl 1 (shift - 1) in
    let q := if (half <? r) || ((r =? half) && Z.odd q) then q + 1 else q in
    Z.sgn n * Z.shiftl q shift.

(** [f"{n:.1f}"] for an int [n]: the int is converted to a float, which is
    printed with all the digits of its integer value and one decimal. *)
Definition format_1f (n : Z) : result string :=
  if FLOAT_OVERFLOW <=? Z.abs n then Raise OverflowError
  else Ok (PyStr.of_int (round_to_double n) ++ ".0").

(** The least magnitude with more than [MAX_STR_DIGITS] decimal digits. *)
Definition INT_STR_LIMIT : Z := 10 ^ Z.of_nat PyStr.MAX_STR_DIGITS.

(** [str(n)] and [f"{n}"] for an int, [ValueError] beyond the digit limit. *)
Definition py_str (n : Z) : result string :=
  if INT_STR_LIMIT <=? Z.abs n then Raise ValueError
  else Ok (PyStr.of_int n).

(** [int(s)] as an expression that may raise. *)
Definition py_int (s : string) : result Z :=
  match PyStr.to_int s with
  | Some n => Ok n
  | None => Raise ValueError
  end.

(** The decimal value of a string of digits. *)
Definition int_of_digits (s : string) : Z :=
  (fix go (acc : Z) (s : string) : Z :=
     match s with
     | EmptyString => acc
     | String c s' => go (10 * acc + PyStr.digit_val c) s'
     end) 0 s.

(** [l[:k]] *)
Definition slice_to {A : Type} (k : Z) (l : list A) : list A :=
  if 0 <=? k then firstn (Z.to_nat k) l
  else firstn (Z.to_nat (Z.of_nat (List.length l) + k)) l.

(** [l.sort(key=key, reverse=True)]: a stable sort into descending key order.
    An element is placed before the ones already sorted unless one of them
    has a strictly greater key, so equal keys keep their input order. *)
Fixpoint insert_desc {A : Type} (key : A -> Q) (x : A) (l : list A) : list A :=
  match l with
  | [] => [x]
  | y :: l' => if Qltb (key x) (key y) then y :: insert_desc key x l' else x :: l
  end.

Definition sort_desc {A : Type} (key : A -> Q) (l : list A) : list A :=
  fold_right (insert_desc key) [] l.

(** ** [JobMatcher.__init__] *)

Definition skill_categories : list (string * list string) :=
  [ ("programming_languages",
      ["python"; "java"; "javascript"; "c++"; "c#"; "php"; "ruby"; "go"]);
    ("frameworks",
      ["react"; "angular"; "vue"; "django"; "flask"; "spring"; "node.js"]);
    ("databases",
      ["mysql"; "postgresql"; "mongodb"; "redis"; "elasticsearch"]);
    ("cloud_technologies", ["aws"; "azure"; "gcp"; "docker"; "kubernetes"]);
    ("data_science",
      ["machine learning"; "deep learning"; "data science"; "tensorflow";
       "pytorch"]);
    ("tools", ["git"; "jenkins"; "jira"; "confluence"]) ].

(** The vocabulary in the order the extractor visits it. *)
Definition vocabulary : list string := flat_map snd skill_categories.

Record Weights : Type := {
  w_skills : Q;
  w_experience : Q;
  w_education : Q
}.

Definition weights : Weights :=
  {| w_skills := 0.5; w_experience := 0.3; w_education := 0.2 |}.

(** ** Requirements and scores (the dicts passed between the methods) *)

Record JobRequirements : Type := {
  required_skills : list string;
  required_experience_years : Z;
  requires_degree : bool;
  is_senior_role : bool;
  job_description_text : string
}.

Record Scores : Type := {
  sc_overall : Q;
  sc_skills : Q;
  sc_experience : Q;
  sc_education : Q;
  sc_matched_skills : list string;
  sc_relevant_experience : list string
}.

(** First pattern (line 95).  With optional parts in braces and group 1 in
    angle brackets: <\d+> {+} \s* year {s} \s* {of \s*} experience *)
Definition pattern_years_experience : Re.regex :=
  Re.Seq (Re.Group (Re.Plus PyStr.is_digit))
  (Re.Seq (Re.Opt (Re.Lit "+"))
  (Re.Seq (Re.Star PyStr.is_space)
  (Re.Seq (Re.Lit "year")
  (Re.Seq (Re.Opt (Re.Lit "s"))
  (Re.Seq (Re.Star PyStr.is_space)
  (Re.Seq (Re.Opt (Re.Seq (Re.Lit "of") (Re.Star PyStr.is_space)))
          (Re.Lit "experience"))))))).

(** Second pattern (line 96):
    <\d+> {+} \s* year {s} \s* {of \s*} {relevant \s*} experience *)
Definition pattern_years_relevant_experience : Re.regex :=
  Re.Seq (Re.Group (Re.Plus PyStr.is_digit))
  (Re.Seq (Re.Opt (Re.Lit "+"))
  (Re.Seq (Re.Star PyStr.is_space)
  (Re.Seq (Re.Lit "year")
  (Re.Seq (Re.Opt (Re.Lit "s"))
  (Re.Seq (Re.Star PyStr.is_space)
  (Re.Seq (Re.Opt (Re.Seq (Re.Lit "of") (Re.Star PyStr.is_space)))
  (Re.Seq (Re.Opt (Re.Seq (Re.Lit "relevant") (Re.Star PyStr.is_space)))
          (Re.Lit "experience")))))))).

(** Third pattern (line 97): minimum \s* <\d+> \s* year {s} *)
Definition pattern_minimum_years : Re.regex :=
  Re.Seq (Re.Lit "minimum")
  (Re.Seq (Re.Star PyStr.is_space)
  (Re.Seq (Re.Group (Re.Plus PyStr.is_digit))
  (Re.Seq (Re.Star PyStr.is_space)
  (Re.Seq (Re.Lit "year") (Re.Opt (Re.Lit "s")))))).

Definition experience_patterns : list Re.regex :=
  [ pattern_years_experience;
    pattern_years_relevant_experience;
    pattern_minimum_years ].

Definition education_keywords : list string :=
  ["bachelor"; "master"; "phd"; "degree"; "university"; "college"].

Definition senior_keywords : list string :=
  ["senior"; "lead"; "principal"; "architect"; "manager"].

(** [s.add(x)] on a set kept as a duplicate-free list. *)
Definition set_add (x : string) (s : list string) : list string :=
  if PyStr.mem x s then s else (s ++ [x])%list.

(** ** The methods *)

Section Matcher.

(** Cosine similarity of the embeddings of two skill names. *)
Variable cosine : string -> string -> Q.

(** [datetime.now().year] *)
Variable now_year : Z.

(** [list(s)] for a set [s] of strings given by its elements in insertion
    order.  The order of the result is fixed by the hashes of the elements. *)
Variable set_iter : list string -> list string.

(** *** [cv_schema.py] *)

Definition year_field (d : string) : option Z :=
  PyStr.to_int (if PyStr.has_char "/" d then PyStr.before_sep "/" d else d).

(** [Experience.get_duration_years]; every exception gives 0. *)
Definition get_duration_years (e : Experience) : Z :=
  match year_field (start_date e) with
  | None => 0
  | Some start_year =>
      let end_year :=
        if PyStr.mem (PyStr.lower (end_date e)) ["present"; "current"]
        then Some now_year
        else year_field (end_date e) in
      match end_year with
      | None => 0
      | Some end_year => Z.max 0 (end_year - start_year)
      end
  end.

(** [CVData.get_total_experience_years] *)
Definition get_total_experience_years (cv : CVData) : Z :=
  fold_left (fun acc e => acc + get_duration_years e) (experience cv) 0.

(** *** [_extract_job_requirements] *)

Definition found_skills (job_desc_lower : string) : list string :=
  fold_left
    (fun s cat =>
       fold_left
         (fun s skill =>
            if PyStr.contains skill job_desc_lower then set_add skill s else s)
         (snd cat) s)
    skill_categories [].

(** The loop over the patterns; it stops at the first [int] that raises. *)
Definition extract_experience_years (job_desc_lower : string) : result Z :=
  fold_left
    (fun state p =>
       required <- state ;;
       match Re.search p job_desc_lower with
       | Some g => n <- py_int g ;; Ok (Z.max required n)
       | None => Ok required
       end)
    experience_patterns (Ok 0).

Definition _extract_job_requirements (job_description : string)
  : result JobRequirements :=
  let job_desc_lower := PyStr.lower job_description in
  let skills_found := set_iter (found_skills job_desc_lower) in
  years <- extract_experience_years job_desc_lower ;;
  Ok {| required_skills := skills_found;
        required_experience_years := years;
        requires_degree :=
          existsb (fun k => PyStr.contains k job_desc_lower) education_keywords;
        is_senior_role :=
          existsb (fun k => PyStr.contains k job_desc_lower) senior_keywords;
        job_description_text := job_description |}.

(** *** [_calculate_skill_match] *)

(** First loop: required skills that the candidate lists. *)
Definition direct_matches (required candidate_skills : list string)
  : list string :=
  fold_left
    (fun matched req_skill =>
       if PyStr.mem req_skill candidate_skills
       then (matched ++ [req_skill])%list else matched)
    required [].

(** Inner loop of the second pass: the first candidate skill that is not
    matched yet and is similar enough to [req_skill]. *)
Fixpoint first_similar (req_skill : string) (matched : list string)
         (candidate_skills : list string) : option string :=
  match candidate_skills with
  | [] => None
  | candidate_skill :: rest =>
      if negb (PyStr.mem candidate_skill matched)
         && Qltb 0.7 (cosine req_skill candidate_skill)
      then Some candidate_skill
      else first_similar req_skill matched rest
  end.

(** Second pass: [matched] is the list being appended to. *)
Definition semantic_matches (required candidate_skills matched : list string)
  : list string :=
  fold_left
    (fun matched req_skill =>
       if PyStr.mem req_skill matched then matched
       else match first_similar req_skill matched candidate_skills with
            | Some candidate_skill => (matched ++ [candidate_skill])%list
            | None => matched
            end)
    required matched.

Definition candidate_skill_names (cv : CVData) : list string :=
  map (fun s => PyStr.lower (skill_name s)) (skills cv).

Definition matched_skills_of (required candidate_skills : list string)
  : list string :=
  let matched := direct_matches required candidate_skills in
  if (List.length matched <? List.length required)%nat
  then semantic_matches required candidate_skills matched
  else matched.

Definition lenZ {A : Type} (l : list A) : Z := Z.of_nat (List.length l).

Definition _calculate_skill_match (cv : CVData) (reqs : JobRequirements)
  : result (Q * list string) :=
  let required := required_skills reqs in
  let candidate_skills := candidate_skill_names cv in
  match required with
  | [] => Ok (0.5%Q, [])
  | _ :: _ =>
      let matched := matched_skills_of required candidate_skills in
      skill_score <-
        match required with
        | [] => Ok 0.5%Q
        | _ :: _ =>
            ratio <- true_div (lenZ matched) (lenZ required) ;;
            Ok (if lenZ candidate_skills >? lenZ required
                then py_min 1 (ratio * 1.1)
                else ratio)%Q
        end ;;
      Ok (skill_score, matched)
  end.

(** *** [_calculate_experience_match] *)

Definition exp_text (e : Experience) : string :=
  PyStr.lower (job_title e ++ " " ++ description e).

Definition relevance_score (job_desc_lower : string) (e : Experience) : Z :=
  fold_left
    (fun score word =>
       if (PyStr.len word >? 3) && PyStr.contains word (exp_text e)
       then score + 1 else score)
    (PyStr.split job_desc_lower) 0.

Definition experience_label (e : Experience) : string :=
  job_title e ++ " at " ++ company e.

Definition relevant_experience_of (job_description : string) (cv : CVData)
  : list string :=
  let job_desc_lower := PyStr.lower job_description in
  fold_left
    (fun relevant e =>
       if relevance_score job_desc_lower e >? 0
       then (relevant ++ [experience_label e])%list
       else relevant)
    (experience cv) [].

Definition _calculate_experience_match (cv : CVData) (reqs : JobRequirements)
           (job_description : string) : result (Q * list string) :=
  let required_years := required_experience_years reqs in
  let candidate_years := get_total_experience_years cv in
  let relevant := relevant_experience_of job_description cv in
  experience_score <-
    (if required_years =? 0
     then Ok (if candidate_years >? 0 then 0.7 else 0.3)%Q
     else if candidate_years >=? required_years
          then ratio <- true_div candidate_years required_years ;;
               Ok (py_min 1 ratio)
          else true_div candidate_years required_years) ;;
  let experience_score :=
    if is_senior_role reqs && (candidate_years <? 3)
    then (experience_score * 0.7)%Q else experience_score in
  Ok (experience_score, relevant).

(** *** [_calculate_education_match] *)

Definition degree_level (edu : Education) : Z :=
  let degree_lower := PyStr.lower (degree edu) in
  if PyStr.contains "phd" degree_lower || PyStr.contains "doctorate" degree_lower
  then 4
  else if PyStr.contains "master" degree_lower then 3
  else if PyStr.contains "bachelor" degree_lower then 2
  else 1.

Definition _calculate_education_match (cv : CVData) (reqs : JobRequirements)
  : result Q :=
  let has_degree := (0 <? List.length (education cv))%nat in
  if negb (requires_degree reqs) then Ok 0.7%Q
  else if has_degree then
    let degree_levels := map degree_level (education cv) in
    let max_degree_level := py_max_default 1 degree_levels in
    ratio <- true_div max_degree_level 2 ;;
    Ok (py_min 1 ratio)
  else Ok 0.3%Q.

(** *** [_calculate_matching_scores] *)

Definition weighted_overall (skill_score experience_score education_score : Q)
  : Q :=
  (skill_score * w_skills weights
   + experience_score * w_experience weights
   + education_score * w_education weights)%Q.

Definition _calculate_matching_scores (cv : CVData) (reqs : JobRequirements)
           (job_description : string) : result Scores :=
  '(skill_score, matched) <- _calculate_skill_match cv reqs ;;
  '(experience_score, relevant) <-
     _calculate_experience_match cv reqs job_description ;;
  education_score <- _calculate_education_match cv reqs ;;
  Ok {| sc_overall :=
          weighted_overall skill_score experience_score education_score;
        sc_skills := skill_score;
        sc_experience := experience_score;
        sc_education := education_score;
        sc_matched_skills := matched;
        sc_relevant_experience := relevant |}.

(** *** [_generate_explanation]

    The parts are joined in the order they are appended.  Each part starts
    with a pictograph, written here by its code points as they are in the
    source file. *)

Definition pic_excellent : text := [240; 376; 376; 162]%N.
Definition pic_good : text := [240; 376; 376; 161]%N.
Definition pic_limited : text := [240; 376; 8221; 180]%N.
Definition pic_check : text := [226; 339; 8230]%N.
Definition pic_cross : text := [226; 338]%N.
Definition pic_warning : text := [226; 353; 160; 239; 184]%N.
Definition pic_target : text := [240; 376; 381; 175]%N.
Definition pic_cap : text := [240; 376; 381; 8220]%N.

(** A part: the pictograph, a space, and the wording. *)
Definition labelled (pic : text) (wording : string) : text :=
  (pic ++ utext (" " ++ wording))%list.

Definition Qgeb (a b : Q) : bool := Qle_bool b a.

Definition _generate_explanation (cv : CVData) (reqs : JobRequirements)
           (scores : Scores) : result text :=
  let overall := sc_overall scores in
  let part_overall :=
    if Qgeb overall 0.8
    then [labelled pic_excellent "Excellent match for this position."]
    else if Qgeb overall 0.6
         then [labelled pic_good
                 "Good match with some areas for consideration."]
         else [labelled pic_limited "Limited match for this position."] in
  let matched := sc_matched_skills scores in
  let required := required_skills reqs in
  let part_matched :=
    match matched with
    | [] => []
    | _ :: _ =>
        [labelled pic_check ("Matching skills: " ++ PyStr.join ", " matched)]
    end in
  let part_missing :=
    if (List.length matched <? List.length required)%nat
    then [labelled pic_cross
            ("Missing skills: "
               ++ PyStr.join ", "
                    (filter (fun skill => negb (PyStr.mem skill matched))
                       required))]
    else [] in
  let candidate_years := get_total_experience_years cv in
  let required_years := required_experience_years reqs in
  part_years <-
    (if required_years >? 0
     then if candidate_years >=? required_years
          then years <- format_1f candidate_years ;;
               required_text <- py_str required_years ;;
               Ok [labelled pic_check
                     ("Has " ++ years ++ " years of experience (required: "
                        ++ required_text ++ ")")]
          else years <- format_1f candidate_years ;;
               required_text <- py_str required_years ;;
               Ok [labelled pic_warning
                     ("Has " ++ years ++ " years of experience (required: "
                        ++ required_text ++ ")")]
     else Ok []) ;;
  let part_relevant :=
    match sc_relevant_experience scores with
    | [] => []
    | relevant =>
        [labelled pic_target
           ("Relevant experience: " ++ PyStr.join ", " (firstn 2 relevant))]
    end in
  let part_education :=
    if requires_degree reqs
    then match education cv with
         | [] => [labelled pic_warning "No formal education information found"]
         | edus =>
             [labelled pic_cap
                ("Education: " ++ PyStr.join ", " (map degree edus))]
         end
    else [] in
  Ok (tjoin (utext " | ")
        (part_overall ++ part_matched ++ part_missing ++ part_years
           ++ part_relevant ++ part_education)%list).

(** *** [find_matches] *)

(** The body of the [try] block for one element of [cv_data_list]. *)
Definition match_candidate (reqs : JobRequirements) (job_description : string)
           (include_explanations : bool) (cv_data_dict : CVDict)
  : result MatchResult :=
  cv <- CVData_of_dict cv_data_dict ;;
  scores <- _calculate_matching_scores cv reqs job_description ;;
  explanation_text <-
    (if include_explanations then _generate_explanation cv reqs scores
     else Ok []) ;;
  Ok {| cv_filename := filename cv;
        candidate_name :=
          if PyStr.is_empty (name (personal_info cv)) then "Unknown"
          else name (personal_info cv);
        overall_score := sc_overall scores;
        skill_match_score := sc_skills scores;
        experience_match_score := sc_experience scores;
        education_match_score := sc_education scores;
        explanation := explanation_text;
        matched_skills := sc_matched_skills scores;
        relevant_experience := sc_relevant_experience scores;
        cv_data := cv_data_dict |}.

(** The loop over [cv_data_list]: a candidate whose processing raises is
    skipped. *)
Definition match_results (reqs : JobRequirements) (job_description : string)
           (include_explanations : bool) (cv_data_list : list CVDict)
  : list MatchResult :=
  fold_left
    (fun results cv_data_dict =>
       match match_candidate reqs job_description include_explanations
               cv_data_dict with
       | Ok match_result => (results ++ [match_result])%list
       | Raise _ => results
       end)
    cv_data_list [].

(** The requirements are extracted outside the [try] of the loop: what the
    extractor raises leaves [find_matches]. *)
Definition find_matches (job_description : string)
           (cv_data_list : list CVDict) (top_k : Z)
           (include_explanations : bool) : result (list MatchResult) :=
  match cv_data_list with
  | [] => Ok []
  | _ :: _ =>
      reqs <- _extract_job_requirements job_description ;;
      let results :=
        match_results reqs job_description include_explanations cv_data_list in
      Ok (slice_to top_k (sort_desc overall_score results))
  end.

(** *** [bulk_match] *)

(** [enumerate(l)], counting from [i]. *)
Fixpoint enumerate_from {A : Type} (i : Z) (l : list A) : list (Z * A) :=
  match l with
  | [] => []
  | x :: l' => (i, x) :: enumerate_from (i + 1) l'
  end.

Definition job_key (i : Z) : string := "Job_" ++ PyStr.of_int (i + 1).

Definition bulk_match (job_descriptions : list string)
           (cv_data_list : list CVDict)
  : result (list (string * list MatchResult)) :=
  fold_left
    (fun state ij =>
       results <- state ;;
       matches <- find_matches (snd ij) cv_data_list 5 true ;;
       Ok (dict_set (job_key (fst ij)) matches results))
    (enumerate_from 0 job_descriptions) (Ok []).

End Matcher.

(** ** Readings of the specification that are compared with the code *)

(** Experience years as the maximum over every occurrence of every pattern. *)
Definition max_years_over_occurrences (text : string) : Z :=
  fold_left Z.max
    (map int_of_digits
       (flat_map (fun p => Re.occurrences p text) experience_patterns))
    0.

(** The value a single pattern contributes: the number in its leftmost match. *)
Definition first_match_years (p : Re.regex) (text : string) : Z :=
  match Re.search p text with
  | Some g => int_of_digits g
  | None => 0
  end.

(** [found] is what [re.search] returns: the match at the leftmost
    position where the pattern matches, or nothing when there is none. *)
Definition is_leftmost_match (r : Re.regex) (s : string) (found : option string)
  : Prop :=
  match found with
  | Some g =>
      exists n,
        Re.match_here r (Re.drop n s) = Some g
        /\ forall m, (m < n)%nat -> Re.match_here r (Re.drop m s) = None
  | None => forall n, Re.match_here r (Re.drop n s) = None
  end.

(** [n] is the number captured at the leftmost position of [text] where [p]
    matches, or 0 when [p] matches nowhere. *)
Definition leftmost_years (p : Re.regex) (text : string) (n : Z) : Prop :=
  (exists k g,
      Re.match_here p (Re.drop k text) = Some g
      /\ (forall m, (m < k)%nat -> Re.match_here p (Re.drop m text) = None)
      /\ n = int_of_digits g)
  \/ ((forall k, Re.match_here p (Re.drop k text) = None) /\ n = 0).

(** Relevance as a shared token: both texts are tokenized on whitespace. *)
Definition shares_token (job_description : string) (e : Experience) : bool :=
  existsb
    (fun word => (PyStr.len word >? 3) && PyStr.mem word (PyStr.split (exp_text e)))
    (PyStr.split (PyStr.lower job_description)).

(** Relevance as the code decides it: a token of the job description occurs
    somewhere in the text of the entry. *)
Definition token_occurs (job_description : string) (e : Experience) : bool :=
  existsb
    (fun word => (PyStr.len word >? 3) && PyStr.contains word (exp_text e))
    (PyStr.split (PyStr.lower job_description)).

(** [l] keeps the relative order of [ref]: it can be read off [ref] from left
    to right. *)
Fixpoint in_order_of (l ref : list string) : bool :=
  match l, ref with
  | [], _ => true
  | _ :: _, [] => false
  | x :: l', y :: ref' =>
      if String.eqb x y then in_order_of l' ref' else in_order_of l ref'
  end.

Inductive Subseq {A : Type} : list A -> list A -> Prop :=
| Subseq_nil : Subseq [] []
| Subseq_skip : forall x l1 l2, Subseq l1 l2 -> Subseq l1 (x :: l2)
| Subseq_keep : forall x l1 l2, Subseq l1 l2 -> Subseq (x :: l1) (x :: l2).

(** The semantic matches with the required skill that discovered each:
    every pair is a required skill and a candidate skill similar to it. *)
Definition discovered_by (cosine : string -> string -> Q)
           (candidate_skills : list string) (pairs : list (string * string))
  : Prop :=
  Forall
    (fun rc => In (snd rc) candidate_skills /\ (0.7 < cosine (fst rc) (snd rc))%Q)
    pairs.

(** A result without its explanation. *)
Definition without_explanation (r : MatchResult) : MatchResult :=
  {| cv_filename := cv_filename r;
     candidate_name := candidate_name r;
     overall_score := overall_score r;
     skill_match_score := skill_match_score r;
     experience_match_score := experience_match_score r;
     education_match_score := education_match_score r;
     explanation := [];
     matched_skills := matched_skills r;
     relevant_experience := relevant_experience r;
     cv_data := cv_data r |}.

Definition in_unit_interval (q : Q) : Prop := (0 <= q /\ q <= 1)%Q.

(** The candidates that are scored without an exception, in input order. *)
Definition scored_in_input_order (cosine : string -> string -> Q) (now_year : Z)
           (reqs : JobRequirements) (job_description : string)
           (include_explanations : bool) (cv_data_list : list CVDict)
  : list MatchResult :=
  flat_map
    (fun d =>
       match match_candidate cosine now_year reqs job_description
               include_explanations d with
       | Ok r => [r]
       | Raise _ => []
       end)
    cv_data_list.




(** The dict validates against the [CVData] schema. *)
Definition is_valid_dict (d : CVDict) : bool :=
  match d with
  | ValidDict _ => true
  | InvalidDict => false
  end.

(** The degree text names a bachelor's degree or a higher one. *)
Definition names_degree (edu : Education) : bool :=
  let degree_lower := PyStr.lower (degree edu) in
  PyStr.contains "phd" degree_lower
  || PyStr.contains "doctorate" degree_lower
  || PyStr.contains "master" degree_lower
  || PyStr.contains "bachelor" degree_lower.

(** The part that opens an explanation. *)
Definition tier_line (overall : Q) : text :=
  if Qle_bool 0.8 overall
  then labelled pic_excellent "Excellent match for this position."
  else if Qle_bool 0.6 overall
       then labelled pic_good "Good match with some areas for consideration."
       else labelled pic_limited "Limited match for this position.".

(** The leftmost match of [p] captures a number that [int] refuses. *)
Definition group_too_long (text : string) (p : Re.regex) : bool :=
  match Re.search p text with
  | Some g => (PyStr.MAX_STR_DIGITS <? String.length g)%nat
  | None => false
  end.

(** [int] refuses the number in the leftmost match of some pattern. *)
Definition number_too_long (job_description : string) : bool :=
  existsb (group_too_long (PyStr.lower job_description)) experience_patterns.


(** The value found under a key whose list is [l]: a key without entries is
    absent. *)
Definition some_if_nonempty {A : Type} (l : list A) : option (list A) :=
  match l with
  | [] => None
  | _ :: _ => Some l
  end.

(** The names of the skills of category [c], in the order of the skills. *)
Definition skill_names_of_category (c : string) (l : list Skill) : list string :=
  map skill_name (filter (fun s => String.eqb (category s) c) l).

Definition is_not_digit (c : ascii) : bool := negb (PyStr.is_digit c).

(** ** Sample inputs *)

Module Samples.

(** No pair of skill names is similar. *)
Definition no_similarity (a b : string) : Q := 0.

(** Set iteration in insertion order, and in the opposite order. *)
Definition insertion_order (l : list string) : list string := l.
Definition reverse_order (l : list string) : list string := rev l.

Definition candidate (who : string) (skill_names : list string)
           (jobs : list Experience) (degrees : list Education) : CVData :=
  {| filename := who ++ ".pdf";
     raw_text := "";
     personal_info :=
       {| name := who; email := ""; phone := ""; location := "" |};
     skills :=
       map (fun s => {| skill_name := s; category := "Technical";
                        proficiency := "Intermediate" |}) skill_names;
     experience := jobs;
     education := degrees |}.

Definition job (title firm from to what : string) : Experience :=
  {| job_title := title; company := firm; start_date := from;
     end_date := to; description := what |}.

Definition ann : CVData :=
  candidate "Ann" ["Python"; "Java"]
    [job "Python Developer" "Acme" "2020" "2022" "Built services"] [].

Definition bob : CVData :=
  candidate "Bob" ["Go"]
    [job "JavaScript Developer" "Initech" "03/2015" "Present" ""]
    [{| degree := "Master of Science"; institution := "MIT";
        field_of_study := "CS"; graduation_year := "2014" |}].

Definition newcomer : CVData := candidate "Cy" [] [] [].

(** What [find_matches] returns for [newcomer] and the empty job description
    when no explanation is asked for. *)
Definition newcomer_result : MatchResult :=
  {| cv_filename := "Cy.pdf";
     candidate_name := "Cy";
     overall_score := 480000 # 1000000;
     skill_match_score := 0.5;
     experience_match_score := 0.3;
     education_match_score := 0.7;
     explanation := [];
     matched_skills := [];
     relevant_experience := [];
     cv_data := ValidDict newcomer |}.

Definition senior_python_job : string :=
  "Senior Python Developer, 5+ years experience, Bachelor's degree required".

(** The scores of [ann] for [senior_python_job]. *)
Definition ann_scores : Scores :=
  {| sc_overall := 322000 # 500000;
     sc_skills := 1;
     sc_experience := 14 # 50;
     sc_education := 0.3;
     sc_matched_skills := ["python"];
     sc_relevant_experience := ["Python Developer at Acme"] |}.

Definition python_and_java_job : string := "python and java".

Definition two_thresholds_job : string :=
  "3 years experience or 10 years experience".

Definition senior_job : string := "Senior developer".

(** The requirement sets that the extractor returns for the sample jobs. *)
Definition senior_python_reqs : JobRequirements :=
  {| required_skills := ["python"];
     required_experience_years := 5;
     requires_degree := true;
     is_senior_role := true;
     job_description_text := senior_python_job |}.

Definition senior_reqs : JobRequirements :=
  {| required_skills := [];
     required_experience_years := 0;
     requires_degree := false;
     is_senior_role := true;
     job_description_text := senior_job |}.

(** With the set iterated in insertion order, and in the opposite order. *)
Definition python_java_reqs : JobRequirements :=
  {| required_skills := ["python"; "java"];
     required_experience_years := 0;
     requires_degree := false;
     is_senior_role := false;
     job_description_text := python_and_java_job |}.

Definition java_python_reqs : JobRequirements :=
  {| required_skills := ["java"; "python"];
     required_experience_years := 0;
     requires_degree := false;
     is_senior_role := false;
     job_description_text := python_and_java_job |}.


Definition empty_reqs : JobRequirements :=
  {| required_skills := [];
     required_experience_years := 0;
     requires_degree := false;
     is_senior_role := false;
     job_description_text := "" |}.

Fixpoint nines (n : nat) : string :=
  match n with
  | O => EmptyString
  | S n' => String "9" (nines n')
  end.

(** A job description whose number of years has 4301 digits. *)
Definition too_long_job : string := nines 4301 ++ " years experience".

Fixpoint zeros (n : nat) : string :=
  match n with
  | O => EmptyString
  | S n' => String "0" (zeros n')
  end.

(** The decimal numeral of 10^309, beyond the range of a double. *)
Definition huge_year : string := String "1" (zeros 309).

Definition methuselah : CVData :=
  candidate "Methuselah" [] [job "Elder" "Eden" "0" huge_year ""] [].

(** A job description that asks for as many years as [methuselah] has. *)
Definition huge_job : string := huge_year ++ " years experience".

Definition huge_reqs : JobRequirements :=
  {| required_skills := [];
     required_experience_years := 10 ^ 309;
     requires_degree := false;
     is_senior_role := false;
     job_description_text := huge_job |}.

End Samples.

(** * Properties *)

(** ** Arithmetic helpers *)

Lemma Qltb_true (a b : Q) : Qltb a b = true <-> (a < b)%Q.
Proof.
  unfold Qltb. rewrite negb_true_iff. split; intro H.
  - apply Qnot_le_lt. intro Hle. apply Qle_bool_iff in Hle. congruence.
  - destruct (Qle_bool b a) eqn:E; [|reflexivity].
    apply Qle_bool_iff in E. exfalso. apply (Qlt_not_le _ _ H E).
Qed.


Lemma py_min_le_l (a b : Q) : (py_min a b <= a)%Q.
Proof.
  unfold py_min. destruct (Qltb b a) eqn:E.
  - apply Qltb_true in E. apply Qlt_le_weak, E.
  - apply Qle_refl.
Qed.

Lemma py_min_nonneg (a b : Q) : (0 <= a -> 0 <= b -> 0 <= py_min a b)%Q.
Proof. unfold py_min. destruct (Qltb b a); auto. Qed.

Lemma FLOAT_OVERFLOW_large : 4 < FLOAT_OVERFLOW.
Proof. apply Z.ltb_lt. vm_compute. reflexivity. Qed.

Lemma true_div_inv (a b : Z) (q : Q) :
  true_div a b = Ok q -> b <> 0 /\ q = (inject_Z a / inject_Z b)%Q.
Proof.
  unfold true_div. destruct (b =? 0) eqn:Eb; [discriminate|].
  destruct (_ <=? _); [discriminate|].
  intros [= <-]. split; [|reflexivity]. now apply Z.eqb_neq.
Qed.

Lemma true_div_raises (a b : Z) (e : exn) :
  true_div a b = Raise e ->
  (b = 0 /\ e = ZeroDivisionError)
  \/ (b <> 0 /\ FLOAT_OVERFLOW * Z.abs b <= Z.abs a /\ e = OverflowError).
Proof.
  unfold true_div. destruct (b =? 0) eqn:Eb.
  - intros [= <-]. left. split; [now apply Z.eqb_eq|reflexivity].
  - destruct (_ <=? _) eqn:Eo; [|discriminate].
    intros [= <-]. right. repeat split.
    + now apply Z.eqb_neq.
    + now apply Z.leb_le.
Qed.

Lemma true_div_defined (a b : Z) :
  b <> 0 -> Z.abs a < FLOAT_OVERFLOW * Z.abs b ->
  true_div a b = Ok (inject_Z a / inject_Z b)%Q.
Proof.
  intros Hb Ha. unfold true_div.
  destruct (b =? 0) eqn:Eb; [apply Z.eqb_eq in Eb; contradiction|].
  destruct (_ <=? _) eqn:Eo; [apply Z.leb_le in Eo; lia|reflexivity].
Qed.

Lemma Qdiv_Z_nonneg (a b : Z) :
  0 <= a -> 0 < b -> (0 <= inject_Z a / inject_Z b)%Q.
Proof.
  intros Ha Hb. apply Qle_shift_div_l.
  - change 0%Q with (inject_Z 0). rewrite <- Zlt_Qlt. exact Hb.
  - rewrite Qmult_0_l. change 0%Q with (inject_Z 0). rewrite <- Zle_Qle. exact Ha.
Qed.

Lemma Qdiv_Z_le_1 (a b : Z) :
  a <= b -> 0 < b -> (inject_Z a / inject_Z b <= 1)%Q.
Proof.
  intros Ha Hb. apply Qle_shift_div_r.
  - change 0%Q with (inject_Z 0). rewrite <- Zlt_Qlt. exact Hb.
  - rewrite Qmult_1_l. rewrite <- Zle_Qle. exact Ha.
Qed.

(** ** Conversions between [int] and [str] *)

Lemma count_digits_all (s : string) :
  PyStr.all_of PyStr.is_digit s = true ->
  PyStr.count_digits s = String.length s.
Proof.
  induction s as [|c s IH]; [reflexivity|].
  cbn [PyStr.all_of PyStr.count_digits String.length].
  intro H. apply andb_true_iff in H as [Hc Hs]. rewrite Hc. now rewrite IH.
Qed.

Lemma digit_not_sign_or_space (c : ascii) :
  PyStr.is_digit c = true ->
  PyStr.is_int_space c = false /\ c <> "+"%char /\ c <> "-"%char
  /\ Ascii.eqb c "_" = false.
Proof.
  destruct c as [[] [] [] [] [] [] [] []]; intro H;
    try discriminate H; repeat split; discriminate.
Qed.

Lemma int_digits_all_digits (s : string) (acc : Z) (prev : bool) :
  PyStr.all_of PyStr.is_digit s = true ->
  prev = true \/ s <> "" ->
  PyStr.int_digits acc prev s
  = Some ((fix go (acc : Z) (s : string) : Z :=
             match s with
             | EmptyString => acc
             | String c s' => go (10 * acc + PyStr.digit_val c) s'
             end) acc s).
Proof.
  revert acc prev. induction s as [|c s IH]; intros acc prev Hall Hprev.
  - destruct Hprev as [->|H]; [reflexivity|contradiction].
  - cbn [PyStr.all_of] in Hall. apply andb_true_iff in Hall as [Hc Hall].
    cbn [PyStr.int_digits]. rewrite Hc. apply IH; [exact Hall|now left].
Qed.

Lemma parse_int_digits (s : string) :
  s <> "" -> PyStr.all_of PyStr.is_digit s = true ->
  PyStr.parse_int s = Some (int_of_digits s).
Proof.
  intros Hne Hall. destruct s as [|c s]; [contradiction|].
  pose proof Hall as Hc. cbn [PyStr.all_of] in Hc.
  apply andb_true_iff in Hc as [Hc _].
  destruct (digit_not_sign_or_space c Hc) as [Hsp [Hplus [Hminus _]]].
  unfold PyStr.parse_int. cbn [PyStr.lstrip]. rewrite Hsp.
  unfold int_of_digits.
  rewrite <- (int_digits_all_digits (String c s) 0 false Hall)
    by (right; discriminate).
  destruct c as [[] [] [] [] [] [] [] []];
    try reflexivity; try (now contradiction Hplus); now contradiction Hminus.
Qed.

(** On a non-empty string of digits [int] gives the decimal value, unless
    there are more than 4300 digits. *)
Lemma py_int_digits (s : string) :
  s <> "" -> PyStr.all_of PyStr.is_digit s = true ->
  py_int s
  = if (PyStr.MAX_STR_DIGITS <? String.length s)%nat then Raise ValueError
    else Ok (int_of_digits s).
Proof.
  intros Hne Hall. unfold py_int, PyStr.to_int.
  rewrite (parse_int_digits s Hne Hall), (count_digits_all s Hall).
  now destruct (_ <? _)%nat.
Qed.

Lemma digit_val_range (c : ascii) :
  PyStr.is_digit c = true -> 0 <= PyStr.digit_val c <= 9.
Proof.
  unfold PyStr.is_digit, PyStr.in_range, PyStr.digit_val. intro H.
  apply andb_true_iff in H as [Hlo Hhi].
  apply N.leb_le in Hlo, Hhi. lia.
Qed.

Lemma int_of_digits_bound (s : string) :
  PyStr.all_of PyStr.is_digit s = true ->
  0 <= int_of_digits s < 10 ^ Z.of_nat (String.length s).
Proof.
  unfold int_of_digits.
  enough (H : forall s acc, PyStr.all_of PyStr.is_digit s = true -> 0 <= acc ->
             acc * 10 ^ Z.of_nat (String.length s)
             <= (fix go (acc : Z) (s : string) : Z :=
                   match s with
                   | EmptyString => acc
                   | String c s' => go (10 * acc + PyStr.digit_val c) s'
                   end) acc s
             < (acc + 1) * 10 ^ Z.of_nat (String.length s)).
  { intro Hall. specialize (H s 0 Hall). lia. }
  clear s. induction s as [|c s IH]; intros acc Hall Hacc.
  - cbn. lia.
  - cbn [PyStr.all_of] in Hall. apply andb_true_iff in Hall as [Hc Hall].
    pose proof (digit_val_range c Hc) as Hd.
    specialize (IH (10 * acc + PyStr.digit_val c) Hall ltac:(lia)).
    cbn [String.length]. rewrite Nat2Z.inj_succ, Z.pow_succ_r by lia.
    assert (Hp : 0 < 10 ^ Z.of_nat (String.length s))
      by (apply Z.pow_pos_nonneg; lia).
    nia.
Qed.

Lemma INT_STR_LIMIT_pos : 0 < INT_STR_LIMIT.
Proof. unfold INT_STR_LIMIT. apply Z.pow_pos_nonneg; lia. Qed.

(** A number read from at most 4300 digits can be printed again. *)
Lemma int_of_digits_printable (s : string) :
  PyStr.all_of PyStr.is_digit s = true ->
  (PyStr.MAX_STR_DIGITS <? String.length s)%nat = false ->
  0 <= int_of_digits s < INT_STR_LIMIT.
Proof.
  intros Hall Hlen. apply Nat.ltb_ge in Hlen.
  pose proof (int_of_digits_bound s Hall) as [H0 H1]. split; [exact H0|].
  apply Z.lt_le_trans with (1 := H1). unfold INT_STR_LIMIT.
  apply Z.pow_le_mono_r; lia.
Qed.

(** ** Group 1 of the experience patterns is a decimal numeral *)

Lemma star_continues {R : Type} (cls : ascii -> bool) (s : string)
      (k : string -> option R) (x : R) :
  Re.star cls s k = Some x ->
  exists pre rest,
    s = pre ++ rest /\ PyStr.all_of cls pre = true /\ k rest = Some x.
Proof.
  induction s as [|c s IH]; cbn [Re.star].
  - intro H. now exists "", "".
  - destruct (cls c) eqn:Hc.
    + destruct (Re.star cls s k) as [y|] eqn:Hs.
      * intros [= ->]. destruct (IH eq_refl) as [pre [rest [-> [Hall Hk]]]].
        exists (String c pre), rest. cbn. rewrite Hc, Hall. now repeat split.
      * intro H. now exists "", (String c s).
    + intro H. now exists "", (String c s).
Qed.

Lemma group_free_keeps_group {R : Type} (r : Re.regex) :
  Re.group_free r = true ->
  forall (s g : string) (k : string -> string -> option R) (x : R),
    Re.run r s g k = Some x -> exists rest, k rest g = Some x.
Proof.
  induction r as [l|cls|cls|r IH|r1 IH1 r2 IH2|r IH];
    cbn [Re.group_free Re.run]; intros Hfree s g k x.
  - destruct (String.prefix l s); [|discriminate]. intro H. eauto.
  - intro H. apply star_continues in H as [_ [rest [_ [_ H]]]]. eauto.
  - destruct s as [|c s]; [discriminate|]. destruct (cls c); [|discriminate].
    intro H. apply star_continues in H as [_ [rest [_ [_ H]]]]. eauto.
  - destruct (Re.run r s g k) as [y|] eqn:Hr.
    + intros [= ->]. now apply (IH Hfree s g k).
    + intro H. eauto.
  - apply andb_true_iff in Hfree as [H1 H2]. intro H.
    apply (IH1 H1) in H as [rest H]. now apply (IH2 H2) in H.
  - discriminate.
Qed.

Lemma string_length_app (a b : string) :
  String.length (a ++ b) = (String.length a + String.length b)%nat.
Proof. induction a as [|c a IH]; cbn; [reflexivity|now rewrite IH]. Qed.

Lemma consumed_app (pre rest : string) : Re.consumed (pre ++ rest) rest = pre.
Proof.
  unfold Re.consumed. rewrite string_length_app.
  replace (String.length pre + String.length rest - String.length rest)%nat
    with (String.length pre) by lia.
  induction pre as [|c pre IH]; cbn.
  - now destruct rest.
  - now rewrite IH.
Qed.

(** A group that holds a non-empty run of a class, followed by a group-free
    remainder, reports a non-empty run of that class. *)
Lemma digits_group_then (cls : ascii -> bool) (r : Re.regex) (s g0 x : string) :
  Re.group_free r = true ->
  Re.run (Re.Seq (Re.Group (Re.Plus cls)) r) s g0 (fun _ g => Some g) = Some x ->
  x <> "" /\ PyStr.all_of cls x = true.
Proof.
  intros Hfree. cbn [Re.run].
  destruct s as [|c s]; [discriminate|]. destruct (cls c) eqn:Hc; [|discriminate].
  intro H. apply star_continues in H as [pre [rest [-> [Hall H]]]].
  apply (group_free_keeps_group r Hfree) in H as [rest' [= <-]].
  change (String c (pre ++ rest)) with (String c pre ++ rest).
  rewrite consumed_app. split; [discriminate|]. cbn. now rewrite Hc, Hall.
Qed.

Lemma search_here (r : Re.regex) (s g : string) :
  Re.search r s = Some g -> exists t, Re.match_here r t = Some g.
Proof.
  induction s as [|c s IH]; cbn [Re.search].
  - destruct (Re.match_here r "") eqn:E; [|discriminate].
    intros [= <-]. eauto.
  - destruct (Re.match_here r (String c s)) eqn:E.
    + intros [= <-]. eauto.
    + exact IH.
Qed.

Lemma experience_patterns_group_digits (p : Re.regex) (text g : string) :
  In p experience_patterns ->
  Re.search p text = Some g ->
  g <> "" /\ PyStr.all_of PyStr.is_digit g = true.
Proof.
  intros Hp Hs. apply search_here in Hs as [t Ht]. unfold Re.match_here in Ht.
  destruct Hp as [<-|[<-|[<-|[]]]].
  - now apply digits_group_then in Ht.
  - now apply digits_group_then in Ht.
  - unfold pattern_minimum_years in Ht. cbn [Re.run] in Ht.
    destruct (String.prefix "minimum" t); [|discriminate].
    apply star_continues in Ht as [_ [rest [_ [_ Ht]]]].
    apply (digits_group_then PyStr.is_digit
             (Re.Seq (Re.Star PyStr.is_space)
                (Re.Seq (Re.Lit "year") (Re.Opt (Re.Lit "s"))))
             rest "" g); [reflexivity|exact Ht].
Qed.

(** What [int(match.group(1))] does on the leftmost match of a pattern. *)
Lemma py_int_group (p : Re.regex) (text g : string) :
  In p experience_patterns ->
  Re.search p text = Some g ->
  py_int g
  = if (PyStr.MAX_STR_DIGITS <? String.length g)%nat then Raise ValueError
    else Ok (int_of_digits g).
Proof.
  intros Hp Hs.
  destruct (experience_patterns_group_digits p text g Hp Hs) as [Hne Hall].
  now apply py_int_digits.
Qed.

Lemma first_match_years_range (p : Re.regex) (text : string) :
  In p experience_patterns ->
  group_too_long text p = false ->
  0 <= first_match_years p text < INT_STR_LIMIT.
Proof.
  intros Hp Hlen. unfold first_match_years, group_too_long in *.
  destruct (Re.search p text) as [g|] eqn:Hs.
  - destruct (experience_patterns_group_digits p text g Hp Hs) as [_ Hall].
    now apply int_of_digits_printable.
  - pose proof INT_STR_LIMIT_pos. lia.
Qed.

(** ** The loop over the experience patterns *)

Lemma extract_step (text : string) (p : Re.regex) (acc : Z) :
  In p experience_patterns -> 0 <= acc ->
  match Re.search p text with
  | Some g => n <- py_int g ;; Ok (Z.max acc n)
  | None => Ok acc
  end
  = if group_too_long text p then Raise ValueError
    else Ok (Z.max acc (first_match_years p text)).
Proof.
  intros Hp Hacc. unfold group_too_long, first_match_years.
  destruct (Re.search p text) as [g|] eqn:Hs.
  - rewrite (py_int_group p text g Hp Hs).
    now destruct (_ <? String.length g)%nat.
  - f_equal. lia.
Qed.

(** The loop over the patterns raises when [int] refuses one of the numbers,
    and otherwise returns the greatest number found. *)
Lemma extract_years_cases (text : string) :
  extract_experience_years text
  = if existsb (group_too_long text) experience_patterns
    then Raise ValueError
    else Ok (Z.max (first_match_years pattern_years_experience text)
               (Z.max (first_match_years pattern_years_relevant_experience text)
                  (first_match_years pattern_minimum_years text))).
Proof.
  assert (Hin1 : In pattern_years_experience experience_patterns)
    by (cbn; auto).
  assert (Hin2 : In pattern_years_relevant_experience experience_patterns)
    by (cbn; auto).
  assert (Hin3 : In pattern_minimum_years experience_patterns)
    by (cbn; auto).
  unfold extract_experience_years, experience_patterns.
  cbn [fold_left existsb bind].
  rewrite (extract_step text _ 0 Hin1) by lia.
  destruct (group_too_long text pattern_years_experience) eqn:L1;
    [reflexivity|].
  pose proof (first_match_years_range _ text Hin1 L1) as R1.
  cbn [bind orb]. rewrite (extract_step text _ _ Hin2) by lia.
  destruct (group_too_long text pattern_years_relevant_experience) eqn:L2;
    [reflexivity|].
  cbn [bind orb]. rewrite (extract_step text _ _ Hin3) by lia.
  destruct (group_too_long text pattern_minimum_years) eqn:L3;
    [reflexivity|].
  cbn [orb]. f_equal. lia.
Qed.

(** The extractor raises [ValueError] when [int] refuses a number, and
    otherwise returns the requirement set read off the lower-cased text. *)
Lemma extraction_cases (set_iter : list string -> list string) (jd : string) :
  _extract_job_requirements set_iter jd
  = if number_too_long jd then Raise ValueError
    else Ok {| required_skills := set_iter (found_skills (PyStr.lower jd));
               required_experience_years :=
                 Z.max (first_match_years pattern_years_experience (PyStr.lower jd))
                   (Z.max (first_match_years pattern_years_relevant_experience
                             (PyStr.lower jd))
                      (first_match_years pattern_minimum_years (PyStr.lower jd)));
               requires_degree :=
                 existsb (fun k => PyStr.contains k (PyStr.lower jd))
                   education_keywords;
               is_senior_role :=
                 existsb (fun k => PyStr.contains k (PyStr.lower jd))
                   senior_keywords;
               job_description_text := jd |}.
Proof.
  unfold _extract_job_requirements, number_too_long. cbv zeta.
  rewrite extract_years_cases.
  now destruct (existsb (group_too_long (PyStr.lower jd)) experience_patterns).
Qed.

Lemma extraction_inv (set_iter : list string -> list string) (jd : string)
      (reqs : JobRequirements) :
  _extract_job_requirements set_iter jd = Ok reqs ->
  number_too_long jd = false
  /\ required_skills reqs = set_iter (found_skills (PyStr.lower jd))
  /\ 0 <= required_experience_years reqs < INT_STR_LIMIT.
Proof.
  rewrite extraction_cases. destruct (number_too_long jd) eqn:Hlong;
    [discriminate|].
  intros [= <-]. cbn [required_skills required_experience_years].
  split; [reflexivity|]. split; [reflexivity|].
  unfold number_too_long in Hlong. cbn [existsb experience_patterns] in Hlong.
  apply orb_false_iff in Hlong as [H1 Hlong].
  apply orb_false_iff in Hlong as [H2 Hlong].
  apply orb_false_iff in Hlong as [H3 _].
  pose proof (first_match_years_range pattern_years_experience (PyStr.lower jd)
                ltac:(cbn; auto) H1).
  pose proof (first_match_years_range pattern_years_relevant_experience
                (PyStr.lower jd) ltac:(cbn; auto) H2).
  pose proof (first_match_years_range pattern_minimum_years (PyStr.lower jd)
                ltac:(cbn; auto) H3).
  lia.
Qed.

(** The sample requirement sets are what the extractor returns. *)
Lemma sample_requirements :
  _extract_job_requirements Samples.insertion_order Samples.senior_python_job
  = Ok Samples.senior_python_reqs
  /\ _extract_job_requirements Samples.insertion_order Samples.senior_job
     = Ok Samples.senior_reqs
  /\ _extract_job_requirements Samples.insertion_order Samples.python_and_java_job
     = Ok Samples.python_java_reqs
  /\ _extract_job_requirements Samples.reverse_order Samples.python_and_java_job
     = Ok Samples.java_python_reqs.
Proof. repeat split; vm_compute; reflexivity. Qed.
(** ** C1: the overall score *)

(** C1.  Whenever the scores of a candidate are computed, the overall score
    is the weighted sum skills * 0.5 + experience * 0.3 + education * 0.2;
    for the dimension scores 0.8, 0.6 and 1.0 this sum is 0.78. *)
Theorem overall_score_fixed_weights
        (cosine : string -> string -> Q) (now_year : Z)
        (cv : CVData) (reqs : JobRequirements) (jd : string) (s : Scores) :
  _calculate_matching_scores cosine now_year cv reqs jd = Ok s ->
  (sc_overall s == sc_skills s * 0.5 + sc_experience s * 0.3 + sc_education s * 0.2
   /\ weighted_overall 0.8 0.6 1.0 == 0.78)%Q.
Proof.
  unfold _calculate_matching_scores. intro H.
  destruct (_calculate_skill_match cosine cv reqs) as [[sk m]|]; [|discriminate].
  destruct (_calculate_experience_match now_year cv reqs jd) as [[ex rel]|];
    [|discriminate].
  destruct (_calculate_education_match cv reqs) as [ed|]; [|discriminate].
  cbn in H. injection H as <-. cbn [sc_overall sc_skills sc_experience sc_education].
  split; reflexivity.
Qed.

Lemma overall_score_fixed_weights_witness :
  _calculate_matching_scores Samples.no_similarity 2026 Samples.ann
    Samples.senior_python_reqs
    Samples.senior_python_job
  = Ok Samples.ann_scores
  /\ (sc_overall Samples.ann_scores
      == sc_skills Samples.ann_scores * 0.5
         + sc_experience Samples.ann_scores * 0.3
         + sc_education Samples.ann_scores * 0.2
      /\ weighted_overall 0.8 0.6 1.0 == 0.78)%Q.
Proof.
  split.
  - vm_compute. reflexivity.
  - apply (overall_score_fixed_weights Samples.no_similarity 2026 Samples.ann
             Samples.senior_python_reqs
             Samples.senior_python_job).
    vm_compute. reflexivity.
Defined.

(** ** C2: ranking *)

Section SortDesc.

Context {A : Type} (key : A -> Q).

Lemma insert_desc_perm (x : A) (l : list A) :
  Permutation (insert_desc key x l) (x :: l).
Proof.
  induction l as [|y l IH]; simpl.
  - apply Permutation_refl.
  - destruct (Qltb (key x) (key y)).
    + rewrite IH. apply perm_swap.
    + apply Permutation_refl.
Qed.

Lemma sort_desc_perm (l : list A) : Permutation (sort_desc key l) l.
Proof.
  induction l as [|x l IH]; simpl.
  - apply perm_nil.
  - rewrite insert_desc_perm. now apply perm_skip.
Qed.





End SortDesc.


Lemma slice_to_nonneg {A : Type} (k : Z) (l : list A) :
  0 <= k -> slice_to k l = firstn (Z.to_nat k) l.
Proof.
  intro H. unfold slice_to. apply Z.leb_le in H. now rewrite H.
Qed.

Lemma match_results_in_input_order
      (cosine : string -> string -> Q) (now_year : Z) (reqs : JobRequirements)
      (jd : string) (incl : bool) (cvs : list CVDict) :
  match_results cosine now_year reqs jd incl cvs
  = scored_in_input_order cosine now_year reqs jd incl cvs.
Proof.
  unfold match_results, scored_in_input_order.
  enough (H : forall acc,
             fold_left
               (fun results d =>
                  match match_candidate cosine now_year reqs jd incl d with
                  | Ok r => (results ++ [r])%list
                  | Raise _ => results
                  end) cvs acc
             = (acc ++ flat_map
                  (fun d =>
                     match match_candidate cosine now_year reqs jd incl d with
                     | Ok r => [r]
                     | Raise _ => []
                     end) cvs)%list) by apply (H []).
  induction cvs as [|d cvs IH]; intro acc; cbn [fold_left flat_map].
  - now rewrite app_nil_r.
  - rewrite IH. destruct (match_candidate _ _ _ _ _ d).
    + now rewrite <- app_assoc.
    + reflexivity.
Qed.

Lemma find_matches_ok
      (cosine : string -> string -> Q) (now_year : Z)
      (set_iter : list string -> list string)
      (jd : string) (cvs : list CVDict) (top_k : Z) (incl : bool)
      (reqs : JobRequirements) :
  _extract_job_requirements set_iter jd = Ok reqs \/ cvs = [] ->
  find_matches cosine now_year set_iter jd cvs top_k incl
  = Ok (slice_to top_k
          (sort_desc overall_score
             (scored_in_input_order cosine now_year reqs jd incl cvs))).
Proof.
  assert (Hnil : forall A (k : Z), slice_to k (@nil A) = [])
    by (intros A k; unfold slice_to; destruct (0 <=? k); apply firstn_nil).
  unfold find_matches. intros [Hreq | ->].
  - destruct cvs as [|d cvs]; [cbn; now rewrite Hnil|].
    rewrite Hreq. cbn [bind]. now rewrite match_results_in_input_order.
  - cbn. now rewrite Hnil.
Qed.

Lemma find_matches_raise
      (cosine : string -> string -> Q) (now_year : Z)
      (set_iter : list string -> list string)
      (jd : string) (cvs : list CVDict) (top_k : Z) (incl : bool) (e : exn) :
  _extract_job_requirements set_iter jd = Raise e -> cvs <> [] ->
  find_matches cosine now_year set_iter jd cvs top_k incl = Raise e.
Proof.
  intros Hreq Hne. unfold find_matches.
  destruct cvs as [|d cvs]; [contradiction|]. now rewrite Hreq.
Qed.

Lemma find_matches_inv
      (cosine : string -> string -> Q) (now_year : Z)
      (set_iter : list string -> list string)
      (jd : string) (cvs : list CVDict) (top_k : Z) (incl : bool)
      (out : list MatchResult) :
  find_matches cosine now_year set_iter jd cvs top_k incl = Ok out ->
  exists reqs,
    (_extract_job_requirements set_iter jd = Ok reqs \/ cvs = [])
    /\ out = slice_to top_k
               (sort_desc overall_score
                  (scored_in_input_order cosine now_year reqs jd incl cvs)).
Proof.
  intro H.
  destruct (_extract_job_requirements set_iter jd) as [reqs|e] eqn:Hreq.
  - exists reqs. split; [now left|].
    rewrite (find_matches_ok _ _ _ _ _ _ _ reqs (or_introl Hreq)) in H.
    now injection H as <-.
  - destruct cvs as [|d cvs].
    + exists Samples.empty_reqs. split; [now right|].
      rewrite (find_matches_ok _ _ _ _ _ _ _ Samples.empty_reqs
                 (or_intror eq_refl)) in H.
      now injection H as <-.
    + rewrite (find_matches_raise _ _ _ _ _ _ _ e Hreq) in H by discriminate.
      discriminate.
Qed.



(** ** C3: required years of experience *)

Lemma drop_empty (n : nat) : Re.drop n "" = "".
Proof. now destruct n. Qed.

Lemma search_is_leftmost (r : Re.regex) (s : string) :
  is_leftmost_match r s (Re.search r s).
Proof.
  induction s as [|c s IH]; cbn [Re.search].
  - destruct (Re.match_here r "") as [g|] eqn:E; cbn.
    + exists 0%nat. split; [exact E|]. intros m Hm. lia.
    + intro n. now rewrite drop_empty.
  - destruct (Re.match_here r (String c s)) as [g|] eqn:E.
    + exists 0%nat. split; [exact E|]. intros m Hm. lia.
    + destruct (Re.search r s) as [g|]; cbn in IH |- *.
      * destruct IH as [n [Hn Hbefore]]. exists (S n). split; [exact Hn|].
        intros [|m] Hm; [exact E|]. cbn. apply Hbefore. lia.
      * intros [|n]; [exact E|]. cbn. apply IH.
Qed.

Lemma first_match_is_leftmost (p : Re.regex) (text : string) :
  leftmost_years p text (first_match_years p text).
Proof.
  pose proof (search_is_leftmost p text) as H.
  unfold leftmost_years, first_match_years, is_leftmost_match in *.
  destruct (Re.search p text) as [g|].
  - destruct H as [k [Hk Hbefore]]. left. now exists k, g.
  - right. now split.
Qed.

(** The number at the leftmost match is determined by the text. *)
Lemma leftmost_years_unique (p : Re.regex) (text : string) (n n' : Z) :
  leftmost_years p text n -> leftmost_years p text n' -> n = n'.
Proof.
  intros [[k [g [Hk [Hb ->]]]]|[Hnone ->]] [[k' [g' [Hk' [Hb' ->]]]]|[Hnone' ->]].
  - destruct (Nat.lt_trichotomy k k') as [Hlt|[<-|Hlt]].
    + rewrite (Hb' k Hlt) in Hk. discriminate.
    + rewrite Hk in Hk'. now injection Hk' as <-.
    + rewrite (Hb k' Hlt) in Hk'. discriminate.
  - rewrite Hnone' in Hk. discriminate.
  - rewrite Hnone in Hk'. discriminate.
  - reflexivity.
Qed.

Lemma search_in_occurrences (r : Re.regex) (s g : string) :
  Re.search r s = Some g -> In g (Re.occurrences r s).
Proof.
  induction s as [|c s IH]; cbn [Re.search Re.occurrences].
  - destruct (Re.match_here r "") as [g'|]; [|discriminate].
    intros [= ->]. now left.
  - destruct (Re.match_here r (String c s)) as [g'|].
    + intros [= ->]. now left.
    + intro H. cbn [app]. now apply IH.
Qed.

Lemma fold_max_ge_init (l : list Z) (acc : Z) : acc <= fold_left Z.max l acc.
Proof.
  revert acc. induction l as [|x l IH]; intro acc; cbn [fold_left]; [lia|].
  specialize (IH (Z.max acc x)). lia.
Qed.

Lemma fold_max_ge_member (l : list Z) (acc x : Z) :
  In x l -> x <= fold_left Z.max l acc.
Proof.
  revert acc. induction l as [|y l IH]; intros acc []; cbn [fold_left].
  - subst y. pose proof (fold_max_ge_init l (Z.max acc x)). lia.
  - now apply IH.
Qed.

Lemma first_match_years_le_max (p : Re.regex) (text : string) :
  In p experience_patterns ->
  first_match_years p text <= max_years_over_occurrences text.
Proof.
  intro Hp. unfold first_match_years, max_years_over_occurrences.
  destruct (Re.search p text) as [g|] eqn:Hs.
  - apply fold_max_ge_member, in_map, in_flat_map.
    exists p. split; [exact Hp|]. now apply search_in_occurrences.
  - apply fold_max_ge_init.
Qed.

(** C3 (amended).  The extractor looks at one match per pattern, the
    leftmost one.  When one of the three numbers found there has more than
    4300 digits the extraction raises [ValueError]; otherwise the required
    years are the greatest of the three numbers (0 standing for a pattern
    that matches nowhere), which is at most the maximum over all
    occurrences. *)
Theorem extracted_years_leftmost_matches
        (set_iter : list string -> list string) (jd : string) :
  if number_too_long jd
  then _extract_job_requirements set_iter jd = Raise ValueError
  else
    exists reqs n1 n2 n3,
      _extract_job_requirements set_iter jd = Ok reqs
      /\ leftmost_years pattern_years_experience (PyStr.lower jd) n1
      /\ leftmost_years pattern_years_relevant_experience (PyStr.lower jd) n2
      /\ leftmost_years pattern_minimum_years (PyStr.lower jd) n3
      /\ required_experience_years reqs = Z.max n1 (Z.max n2 n3)
      /\ required_experience_years reqs
         <= max_years_over_occurrences (PyStr.lower jd).
Proof.
  rewrite extraction_cases. destruct (number_too_long jd); [reflexivity|].
  eexists.
  exists (first_match_years pattern_years_experience (PyStr.lower jd)),
         (first_match_years pattern_years_relevant_experience (PyStr.lower jd)),
         (first_match_years pattern_minimum_years (PyStr.lower jd)).
  split; [reflexivity|].
  split; [apply first_match_is_leftmost|].
  split; [apply first_match_is_leftmost|].
  split; [apply first_match_is_leftmost|].
  cbn [required_experience_years]. split; [reflexivity|].
  pose proof (first_match_years_le_max pattern_years_experience (PyStr.lower jd)
                ltac:(cbn; auto)).
  pose proof (first_match_years_le_max pattern_years_relevant_experience
                (PyStr.lower jd) ltac:(cbn; auto)).
  pose proof (first_match_years_le_max pattern_minimum_years (PyStr.lower jd)
                ltac:(cbn; auto)).
  lia.
Qed.

(** C3 as stated fails: with two thresholds matched by the same pattern the
    first one is taken although the second is higher. *)
Lemma extracted_years_not_maximum :
  result_map required_experience_years
    (_extract_job_requirements Samples.insertion_order Samples.two_thresholds_job)
  = Ok 3
  /\ max_years_over_occurrences (PyStr.lower Samples.two_thresholds_job) = 10
  /\ result_map required_experience_years
       (_extract_job_requirements Samples.insertion_order
          Samples.two_thresholds_job)
     <> Ok (max_years_over_occurrences (PyStr.lower Samples.two_thresholds_job)).
Proof.
  split; [vm_compute; reflexivity|]. split; [vm_compute; reflexivity|].
  vm_compute. discriminate.
Qed.

(** A later number does govern when another pattern finds it first: here the
    third pattern has its leftmost match at the second number. *)
Lemma extracted_years_across_patterns :
  result_map required_experience_years
    (_extract_job_requirements Samples.insertion_order
       "3 years experience, minimum 10 years experience")
  = Ok 10.
Proof. vm_compute. reflexivity. Qed.

(** ** C4: experience score without a stated requirement *)

Lemma total_years_nonneg (now_year : Z) (cv : CVData) :
  0 <= get_total_experience_years now_year cv.
Proof.
  unfold get_total_experience_years.
  enough (H : forall l acc, 0 <= acc ->
                0 <= fold_left (fun a e => a + get_duration_years now_year e) l acc)
    by (apply H; lia).
  induction l as [|e l IH]; intros acc Hacc; cbn [fold_left]; [exact Hacc|].
  apply IH. unfold get_duration_years.
  destruct (year_field (start_date e)); [|lia].
  destruct (if PyStr.mem _ _ then _ else _); lia.
Qed.

(** C4 (amended).  With no required years the experience score is 0.7 for a
    candidate with a positive number of years and 0.3 otherwise, multiplied
    by 0.7 when the role is senior and the candidate has fewer than 3 years.
    So the score is 0.7 or 0.3 exactly when that adjustment does not apply,
    and 0.49 or 0.21 when it does. *)
Theorem experience_score_unspecified_years
        (now_year : Z) (cv : CVData) (reqs : JobRequirements) (jd : string) :
  required_experience_years reqs = 0 ->
  exists score,
    _calculate_experience_match now_year cv reqs jd
    = Ok (score, relevant_experience_of jd cv)
    /\ (score ==
        (if get_total_experience_years now_year cv >? 0 then 0.7 else 0.3)
        * (if is_senior_role reqs && (get_total_experience_years now_year cv <? 3)
           then 0.7 else 1))%Q
    /\ (is_senior_role reqs && (get_total_experience_years now_year cv <? 3) = false ->
        score == 0.7 \/ score == 0.3)%Q.
Proof.
  intro Hreq. unfold _calculate_experience_match. rewrite Hreq. cbn [Z.eqb bind].
  destruct (is_senior_role reqs && _) eqn:Hadj;
    destruct (get_total_experience_years now_year cv >? 0);
    eexists; (split; [reflexivity|]); split;
    try reflexivity; try discriminate; intros _; [left|right]; reflexivity.
Qed.

Lemma experience_score_unspecified_years_witness :
  required_experience_years
    Samples.senior_reqs = 0
  /\ exists score,
       _calculate_experience_match 2026 Samples.bob
         Samples.senior_reqs
         Samples.senior_job
       = Ok (score, relevant_experience_of Samples.senior_job Samples.bob)
       /\ (score ==
           (if get_total_experience_years 2026 Samples.bob >? 0 then 0.7 else 0.3)
           * (if is_senior_role
                   Samples.senior_reqs
                 && (get_total_experience_years 2026 Samples.bob <? 3)
              then 0.7 else 1))%Q
       /\ (is_senior_role
             Samples.senior_reqs
           && (get_total_experience_years 2026 Samples.bob <? 3) = false ->
           score == 0.7 \/ score == 0.3)%Q.
Proof.
  split; [reflexivity|].
  apply (experience_score_unspecified_years 2026 Samples.bob
           Samples.senior_reqs
           Samples.senior_job).
  reflexivity.
Defined.

(** C4 as stated fails: for a senior role without stated years, a candidate
    with two years of experience scores 0.7 * 0.7. *)
Lemma experience_score_senior_adjusted :
  _extract_job_requirements Samples.insertion_order Samples.senior_job
  = Ok Samples.senior_reqs
  /\ required_experience_years Samples.senior_reqs = 0
  /\ _calculate_experience_match 2026 Samples.ann Samples.senior_reqs
       Samples.senior_job
     = Ok (0.49%Q, ["Python Developer at Acme"])
  /\ ~ (0.49 == 0.7)%Q /\ ~ (0.49 == 0.3)%Q.
Proof.
  split; [vm_compute; reflexivity|].
  split; [reflexivity|]. split; [vm_compute; reflexivity|].
  split; intro H; vm_compute in H; discriminate.
Qed.

(** ** C5 and C10: the matched skills *)

Lemma mem_In (x : string) (l : list string) : PyStr.mem x l = true <-> In x l.
Proof.
  unfold PyStr.mem. rewrite existsb_exists. split.
  - intros [y [Hy Heq]]. apply String.eqb_eq in Heq. now subst.
  - intro H. exists x. split; [exact H|apply String.eqb_refl].
Qed.

Lemma mem_app_l (x : string) (l1 l2 : list string) :
  PyStr.mem x l1 = true -> PyStr.mem x (l1 ++ l2) = true.
Proof. rewrite !mem_In. intro H. apply in_or_app. now left. Qed.

Lemma direct_matches_filter (required cands : list string) :
  direct_matches required cands
  = filter (fun r => PyStr.mem r cands) required.
Proof.
  unfold direct_matches.
  enough (H : forall acc,
             fold_left
               (fun matched r =>
                  if PyStr.mem r cands then (matched ++ [r])%list else matched)
               required acc
             = (acc ++ filter (fun r => PyStr.mem r cands) required)%list)
    by apply (H []).
  induction required as [|r required IH]; intro acc; cbn [fold_left filter].
  - now rewrite app_nil_r.
  - rewrite IH. destruct (PyStr.mem r cands); [|reflexivity].
    now rewrite <- app_assoc.
Qed.

Lemma first_similar_found (cosine : string -> string -> Q)
      (r : string) (matched cands : list string) (c : string) :
  first_similar cosine r matched cands = Some c ->
  In c cands /\ PyStr.mem c matched = false /\ (0.7 < cosine r c)%Q.
Proof.
  induction cands as [|c' cands IH]; cbn [first_similar]; [discriminate|].
  destruct (negb (PyStr.mem c' matched) && Qltb 0.7 (cosine r c')) eqn:E.
  - intros [= <-]. apply andb_true_iff in E as [E1 E2].
    apply negb_true_iff in E1. apply Qltb_true in E2.
    repeat split; [now left|exact E1|exact E2].
  - intro H. destruct (IH H) as [H1 H2]. split; [now right|exact H2].
Qed.

Lemma Subseq_nil_l {A : Type} (l : list A) : Subseq [] l.
Proof. induction l; constructor; assumption. Qed.

Lemma Subseq_length {A : Type} (l1 l2 : list A) :
  Subseq l1 l2 -> (List.length l1 <= List.length l2)%nat.
Proof. induction 1; cbn; lia. Qed.

(** The second pass appends, for some of the required skills that the
    candidate does not list, one candidate skill each, in the order of those
    required skills. *)
Lemma semantic_matches_spec (cosine : string -> string -> Q)
      (cands rest matched : list string) :
  (forall r, In r rest -> PyStr.mem r cands = true -> PyStr.mem r matched = true) ->
  exists pairs,
    semantic_matches cosine rest cands matched = (matched ++ map snd pairs)%list
    /\ Subseq (map fst pairs) (filter (fun r => negb (PyStr.mem r cands)) rest)
    /\ discovered_by cosine cands pairs.
Proof.
  unfold semantic_matches, discovered_by.
  revert matched. induction rest as [|r rest IH]; intros matched Hinv.
  - exists []. cbn. rewrite app_nil_r. repeat split; constructor.
  - cbn [fold_left filter].
    assert (Hrest : forall matched',
               (forall x, PyStr.mem x matched = true -> PyStr.mem x matched' = true) ->
               forall r0, In r0 rest -> PyStr.mem r0 cands = true ->
                          PyStr.mem r0 matched' = true).
    { intros matched' Hmono r0 Hin Hc. apply Hmono, Hinv; [now right|exact Hc]. }
    destruct (PyStr.mem r matched) eqn:Hm.
    + destruct (IH matched (Hrest matched (fun _ H => H))) as [pairs [He [Hs Hd]]].
      exists pairs. repeat split; [exact He| |exact Hd].
      destruct (negb (PyStr.mem r cands)); [now constructor|exact Hs].
    + assert (Hrc : PyStr.mem r cands = false).
      { destruct (PyStr.mem r cands) eqn:E; [|reflexivity].
        rewrite (Hinv r (or_introl eq_refl) E) in Hm. discriminate. }
      rewrite Hrc. cbn [negb].
      destruct (first_similar cosine r matched cands) as [c|] eqn:Hf.
      * destruct (IH (matched ++ [c])%list
                    (Hrest _ (fun x H => mem_app_l x matched [c] H)))
          as [pairs [He [Hs Hd]]].
        exists ((r, c) :: pairs). cbn [map fst snd]. repeat split.
        -- rewrite He. now rewrite <- app_assoc.
        -- now constructor.
        -- apply first_similar_found in Hf as [H1 [_ H3]].
           constructor; [split; assumption|exact Hd].
      * destruct (IH matched (Hrest matched (fun _ H => H))) as [pairs [He [Hs Hd]]].
        exists pairs. repeat split; [exact He| |exact Hd]. now constructor.
Qed.

Lemma matched_skills_of_spec (cosine : string -> string -> Q)
      (required cands : list string) :
  exists pairs,
    matched_skills_of cosine required cands
    = (filter (fun r => PyStr.mem r cands) required ++ map snd pairs)%list
    /\ Subseq (map fst pairs) (filter (fun r => negb (PyStr.mem r cands)) required)
    /\ discovered_by cosine cands pairs.
Proof.
  unfold matched_skills_of. rewrite direct_matches_filter.
  destruct (_ <? _)%nat.
  - apply semantic_matches_spec. intros r Hin Hc.
    apply mem_In, filter_In. now split.
  - exists []. cbn. rewrite app_nil_r.
    repeat split; [apply Subseq_nil_l|constructor].
Qed.

Lemma filter_partition_length {A : Type} (f : A -> bool) (l : list A) :
  (List.length (filter f l) + List.length (filter (fun x => negb (f x)) l)
   = List.length l)%nat.
Proof.
  induction l as [|x l IH]; [reflexivity|].
  cbn [filter]. destruct (f x); cbn; lia.
Qed.

Lemma matched_skills_of_length (cosine : string -> string -> Q)
      (required cands : list string) :
  (List.length (matched_skills_of cosine required cands) <= List.length required)%nat.
Proof.
  destruct (matched_skills_of_spec cosine required cands) as [pairs [He [Hs _]]].
  rewrite He, length_app, length_map.
  apply Subseq_length in Hs. rewrite length_map in Hs.
  pose proof (filter_partition_length (fun r => PyStr.mem r cands) required).
  lia.
Qed.

(** With a non-empty requirement the scorer never raises: the ratio of the
    two lengths is at most 1. *)
Lemma skill_match_defined (cosine : string -> string -> Q)
      (cv : CVData) (reqs : JobRequirements) :
  required_skills reqs <> [] ->
  _calculate_skill_match cosine cv reqs
  = Ok ((if lenZ (candidate_skill_names cv) >? lenZ (required_skills reqs)
         then py_min 1
                (inject_Z (lenZ (matched_skills_of cosine (required_skills reqs)
                                   (candidate_skill_names cv)))
                 / inject_Z (lenZ (required_skills reqs)) * 1.1)
         else inject_Z (lenZ (matched_skills_of cosine (required_skills reqs)
                                (candidate_skill_names cv)))
              / inject_Z (lenZ (required_skills reqs)))%Q,
        matched_skills_of cosine (required_skills reqs) (candidate_skill_names cv)).
Proof.
  intro Hne. unfold _calculate_skill_match.
  destruct (required_skills reqs) as [|r0 required] eqn:Hreq; [contradiction|].
  pose proof (matched_skills_of_length cosine (r0 :: required)
                (candidate_skill_names cv)) as Hlen.
  rewrite true_div_defined.
  - reflexivity.
  - unfold lenZ. cbn [List.length]. lia.
  - pose proof FLOAT_OVERFLOW_large as Hbig. unfold lenZ.
    cbn [List.length] in Hlen |- *. nia.
Qed.

(** C5 (amended).  The matched skills are the direct matches first, in the
    order of the required-skills list of the requirement set (the iteration
    order of the set built by the extractor, which need not be the order of
    the vocabulary), followed by the semantic matches in the order of the
    required skills that discovered them; each semantic match is a candidate
    skill whose similarity to that required skill exceeds 0.7, found for a
    required skill the candidate does not list. *)
Theorem matched_skills_direct_then_semantic
        (cosine : string -> string -> Q) (cv : CVData) (reqs : JobRequirements) :
  exists score pairs,
    _calculate_skill_match cosine cv reqs
    = Ok (score,
          (filter (fun r => PyStr.mem r (candidate_skill_names cv))
                  (required_skills reqs)
           ++ map snd pairs)%list)
    /\ Subseq (map fst pairs)
              (filter (fun r => negb (PyStr.mem r (candidate_skill_names cv)))
                      (required_skills reqs))
    /\ discovered_by cosine (candidate_skill_names cv) pairs.
Proof.
  destruct (required_skills reqs) as [|r0 required] eqn:Hreq.
  - exists 0.5%Q, []. unfold _calculate_skill_match. rewrite Hreq. cbn.
    repeat split; constructor.
  - destruct (matched_skills_of_spec cosine (r0 :: required)
                (candidate_skill_names cv)) as [pairs [He [Hs Hd]]].
    eexists. exists pairs. split; [|split; assumption].
    rewrite skill_match_defined by (rewrite Hreq; discriminate).
    rewrite Hreq, He. reflexivity.
Qed.

(** C5 as stated fails: when the set of required skills is iterated with
    java before python, the direct matches come out in that order, which is
    not the order of the vocabulary. *)
Lemma matched_skills_not_in_vocabulary_order :
  _extract_job_requirements Samples.reverse_order Samples.python_and_java_job
  = Ok Samples.java_python_reqs
  /\ _calculate_skill_match Samples.no_similarity Samples.ann
       Samples.java_python_reqs
     = Ok (2 # 2, ["java"; "python"])
  /\ direct_matches ["java"; "python"] (candidate_skill_names Samples.ann)
     = ["java"; "python"]
  /\ in_order_of ["java"; "python"] vocabulary = false
  /\ in_order_of ["python"; "java"] vocabulary = true.
Proof. repeat split; vm_compute; reflexivity. Qed.

Lemma NoDup_snoc (x : string) (l : list string) :
  NoDup l -> ~ In x l -> NoDup (l ++ [x]).
Proof.
  intros Hl Hx. apply (Permutation_NoDup (l := x :: l)).
  - apply Permutation_cons_append.
  - now constructor.
Qed.

Lemma semantic_matches_NoDup (cosine : string -> string -> Q)
      (cands rest matched : list string) :
  NoDup matched -> NoDup (semantic_matches cosine rest cands matched).
Proof.
  unfold semantic_matches. revert matched.
  induction rest as [|r rest IH]; intros matched Hnd; cbn [fold_left];
    [exact Hnd|].
  destruct (PyStr.mem r matched); [now apply IH|].
  destruct (first_similar cosine r matched cands) as [c|] eqn:Hf;
    [|now apply IH].
  apply IH, NoDup_snoc; [exact Hnd|].
  apply first_similar_found in Hf as [_ [Hm _]].
  intro Hin. apply mem_In in Hin. congruence.
Qed.

Lemma matched_skills_of_NoDup (cosine : string -> string -> Q)
      (required cands : list string) :
  NoDup required -> NoDup (matched_skills_of cosine required cands).
Proof.
  intro Hnd. unfold matched_skills_of. rewrite direct_matches_filter.
  destruct (_ <? _)%nat.
  - apply semantic_matches_NoDup. now apply NoDup_filter.
  - now apply NoDup_filter.
Qed.

(** C10.  For a requirement set whose required skills are non-empty and
    pairwise distinct (they come from a set), the skill scorer returns a list
    of matched skills without duplicates, no longer than the list of required
    skills, so that the ratio of the two lengths is at most 1. *)
Theorem matched_skills_distinct_and_bounded
        (cosine : string -> string -> Q) (cv : CVData) (reqs : JobRequirements) :
  required_skills reqs <> [] ->
  NoDup (required_skills reqs) ->
  exists score matched,
    _calculate_skill_match cosine cv reqs = Ok (score, matched)
    /\ NoDup matched
    /\ (List.length matched <= List.length (required_skills reqs))%nat
    /\ (inject_Z (lenZ matched) / inject_Z (lenZ (required_skills reqs)) <= 1)%Q.
Proof.
  intros Hne Hnd. eexists. eexists. split; [now apply skill_match_defined|].
  pose proof (matched_skills_of_length cosine (required_skills reqs)
                (candidate_skill_names cv)) as Hlen.
  split; [now apply matched_skills_of_NoDup|]. split; [exact Hlen|].
  apply Qdiv_Z_le_1; unfold lenZ.
  - lia.
  - destruct (required_skills reqs); [contradiction|cbn [List.length]; lia].
Qed.

Lemma matched_skills_distinct_and_bounded_witness :
  required_skills
    Samples.java_python_reqs
  <> []
  /\ NoDup (required_skills
              Samples.java_python_reqs)
  /\ exists score matched,
       _calculate_skill_match Samples.no_similarity Samples.bob
         Samples.java_python_reqs
       = Ok (score, matched)
       /\ NoDup matched
       /\ (List.length matched
           <= List.length
                (required_skills
                   Samples.java_python_reqs))%nat
       /\ (inject_Z (lenZ matched)
           / inject_Z
               (lenZ (required_skills
                        Samples.java_python_reqs))
           <= 1)%Q.
Proof.
  assert (Hnd : NoDup ["java"; "python"]).
  { constructor.
    - cbn. intros [H|[]]. discriminate.
    - constructor; [intros []|constructor]. }
  split; [discriminate|]. split; [exact Hnd|].
  apply (matched_skills_distinct_and_bounded Samples.no_similarity Samples.bob
           Samples.java_python_reqs).
  - discriminate.
  - exact Hnd.
Defined.

(** ** C6: relevant experience *)

Lemma prefix_spec (sub s : string) :
  String.prefix sub s = true <-> exists post, s = sub ++ post.
Proof.
  revert s. induction sub as [|c sub IH]; intro s.
  - split; [intros _; now exists s|intros _; now destruct s].
  - destruct s as [|d s]; cbn [String.prefix].
    + split; [discriminate|intros [post H]; discriminate].
    + destruct (Ascii.ascii_dec c d) as [->|Hne].
      * rewrite IH. split; intros [post H]; exists post.
        -- cbn. now rewrite H.
        -- cbn in H. now injection H.
      * split; [discriminate|]. intros [post H]. cbn in H.
        injection H as H1 _. congruence.
Qed.

Lemma contains_spec (sub s : string) :
  PyStr.contains sub s = true <-> exists pre post, s = pre ++ sub ++ post.
Proof.
  induction s as [|c s IH]; cbn [PyStr.contains]; rewrite orb_true_iff.
  - split.
    + intros [H|H]; [|discriminate]. apply prefix_spec in H as [post H].
      now exists "", post.
    + intros [pre [post H]]. left. apply prefix_spec.
      destruct pre; [|discriminate]. now exists post.
  - rewrite IH. split.
    + intros [H|[pre [post H]]].
      * apply prefix_spec in H as [post H]. now exists "", post.
      * exists (String c pre), post. cbn. now rewrite H.
    + intros [[|d pre] [post H]].
      * left. apply prefix_spec. now exists post.
      * right. cbn in H. injection H as _ H. now exists pre, post.
Qed.

Lemma string_app_assoc (a b c : string) : (a ++ b) ++ c = a ++ b ++ c.
Proof. induction a as [|x a IH]; cbn; [reflexivity|now rewrite IH]. Qed.

Lemma string_app_empty_r (a : string) : a ++ "" = a.
Proof. induction a as [|x a IH]; cbn; [reflexivity|now rewrite IH]. Qed.

(** Every token of [s.split()] occurs in [s]. *)
Lemma split_from_occurs (w cur s : string) :
  In w (PyStr.split_from cur s) -> exists pre post, cur ++ s = pre ++ w ++ post.
Proof.
  revert cur. induction s as [|c s IH]; intro cur; cbn [PyStr.split_from].
  - destruct (PyStr.is_empty cur); [intros []|].
    intros [<-|[]]. exists "", "". cbn. now rewrite !string_app_empty_r.
  - destruct (PyStr.is_space c).
    + assert (Hskip : In w (PyStr.split_from "" s) ->
                      exists pre post, cur ++ String c s = pre ++ w ++ post).
      { intro H. apply IH in H as [pre [post H]]. cbn in H.
        exists (cur ++ String c pre), post.
        rewrite string_app_assoc. cbn. now rewrite H. }
      destruct (PyStr.is_empty cur); [exact Hskip|].
      intros [<-|H]; [|now apply Hskip].
      now exists "", (String c s).
    + intro H. apply IH in H as [pre [post H]].
      exists pre, post. rewrite <- H, string_app_assoc. reflexivity.
Qed.

Lemma split_occurs (w s : string) :
  In w (PyStr.split s) -> PyStr.contains w s = true.
Proof.
  intro H. apply contains_spec. now apply split_from_occurs in H.
Qed.

Lemma relevance_score_positive (job_desc_lower : string) (e : Experience) :
  (relevance_score job_desc_lower e >? 0)
  = existsb
      (fun word => (PyStr.len word >? 3) && PyStr.contains word (exp_text e))
      (PyStr.split job_desc_lower).
Proof.
  unfold relevance_score.
  enough (H : forall l acc, 0 <= acc ->
             (fold_left
                (fun score word =>
                   if (PyStr.len word >? 3) && PyStr.contains word (exp_text e)
                   then score + 1 else score) l acc >? 0)
             = (acc >? 0)
               || existsb
                    (fun word =>
                       (PyStr.len word >? 3) && PyStr.contains word (exp_text e))
                    l) by (apply (H _ 0); lia).
  induction l as [|w l IH]; intros acc Hacc; cbn [fold_left existsb].
  - now rewrite orb_false_r.
  - destruct ((PyStr.len w >? 3) && PyStr.contains w (exp_text e)).
    + rewrite IH by lia. cbn [orb]. rewrite orb_true_r.
      replace (acc + 1 >? 0) with true; [reflexivity|].
      symmetry. apply Z.gtb_lt. lia.
    + rewrite IH by lia. reflexivity.
Qed.

Lemma relevant_experience_filter (jd : string) (cv : CVData) :
  relevant_experience_of jd cv
  = map experience_label (filter (token_occurs jd) (experience cv)).
Proof.
  unfold relevant_experience_of.
  enough (H : forall l acc,
             fold_left
               (fun relevant e =>
                  if relevance_score (PyStr.lower jd) e >? 0
                  then (relevant ++ [experience_label e])%list else relevant)
               l acc
             = (acc ++ map experience_label (filter (token_occurs jd) l))%list)
    by apply (H _ []).
  induction l as [|e l IH]; intro acc; cbn [fold_left filter map].
  - now rewrite app_nil_r.
  - rewrite IH, relevance_score_positive. unfold token_occurs at 2.
    destruct (existsb _ _); [|reflexivity].
    cbn [map]. now rewrite <- app_assoc.
Qed.

(** C6 (amended).  The relevant-experience list holds "<title> at <company>"
    for exactly the entries, in their original order, for which some
    whitespace-separated token of the lower-cased job description, longer
    than 3 characters, occurs as a substring of the lower-cased
    "<title> <description>" text.  Every entry that shares such a token with
    the job description is therefore included. *)
Theorem relevant_experience_by_substring (jd : string) (cv : CVData) :
  relevant_experience_of jd cv
  = map experience_label (filter (token_occurs jd) (experience cv))
  /\ (forall e,
        token_occurs jd e = true <->
        exists word pre post,
          In word (PyStr.split (PyStr.lower jd))
          /\ 3 < PyStr.len word
          /\ exp_text e = pre ++ word ++ post)
  /\ (forall e, shares_token jd e = true -> token_occurs jd e = true).
Proof.
  split; [apply relevant_experience_filter|]. split.
  - intro e. unfold token_occurs. rewrite existsb_exists. split.
    + intros [w [Hin Hw]]. apply andb_true_iff in Hw as [Hlen Hc].
      apply contains_spec in Hc as [pre [post Hc]].
      exists w, pre, post. repeat split; [exact Hin| |exact Hc].
      apply Z.gtb_lt in Hlen. lia.
    + intros [w [pre [post [Hin [Hlen Hc]]]]]. exists w. split; [exact Hin|].
      apply andb_true_iff. split.
      * apply Z.gtb_lt. lia.
      * apply contains_spec. now exists pre, post.
  - intro e. unfold shares_token, token_occurs. rewrite !existsb_exists.
    intros [w [Hin Hw]]. exists w. split; [exact Hin|].
    apply andb_true_iff in Hw as [Hlen Hm]. apply andb_true_iff.
    split; [exact Hlen|]. apply split_occurs, mem_In, Hm.
Qed.

Lemma relevant_experience_by_substring_witness :
  relevant_experience_of "java" Samples.bob
  = map experience_label (filter (token_occurs "java") (experience Samples.bob))
  /\ (forall e,
        token_occurs "java" e = true <->
        exists word pre post,
          In word (PyStr.split (PyStr.lower "java"))
          /\ 3 < PyStr.len word
          /\ exp_text e = pre ++ word ++ post)
  /\ (forall e, shares_token "java" e = true -> token_occurs "java" e = true).
Proof. apply (relevant_experience_by_substring "java" Samples.bob). Defined.

(** C6 as stated fails: the token java of the job description occurs inside
    javascript, so the entry is listed although the two texts share no
    token. *)
Lemma relevant_experience_without_shared_token :
  relevant_experience_of "java" Samples.bob = ["JavaScript Developer at Initech"]
  /\ forall e, In e (experience Samples.bob) -> shares_token "java" e = false.
Proof.
  split; [vm_compute; reflexivity|].
  intros e [<-|[]]. vm_compute. reflexivity.
Qed.

(** ** C7: degenerate inputs *)

Lemma slice_to_zero {A : Type} (l : list A) : slice_to 0 l = [].
Proof. reflexivity. Qed.




(** ** C8: every score lies between 0 and 1 *)

Lemma py_min_1_unit (q : Q) : (0 <= q)%Q -> in_unit_interval (py_min 1 q).
Proof.
  intro H. split.
  - apply py_min_nonneg; [discriminate|exact H].
  - apply py_min_le_l.
Qed.

Lemma skill_score_unit (cosine : string -> string -> Q)
      (cv : CVData) (reqs : JobRequirements) :
  exists score matched,
    _calculate_skill_match cosine cv reqs = Ok (score, matched)
    /\ in_unit_interval score.
Proof.
  destruct (required_skills reqs) as [|r0 required] eqn:Hreq.
  - exists 0.5%Q, []. unfold _calculate_skill_match. rewrite Hreq.
    split; [reflexivity|]. split; discriminate.
  - eexists. eexists.
    split; [apply skill_match_defined; rewrite Hreq; discriminate|].
    pose proof (matched_skills_of_length cosine (required_skills reqs)
                  (candidate_skill_names cv)) as Hlen.
    assert (Hpos : 0 < lenZ (required_skills reqs))
      by (rewrite Hreq; unfold lenZ; cbn [List.length]; lia).
    assert (H0 : (0 <= inject_Z (lenZ (matched_skills_of cosine
                                         (required_skills reqs)
                                         (candidate_skill_names cv)))
                      / inject_Z (lenZ (required_skills reqs)))%Q)
      by (apply Qdiv_Z_nonneg; [unfold lenZ; lia|exact Hpos]).
    destruct (_ >? _).
    + apply py_min_1_unit.
      apply Qmult_le_0_compat; [exact H0|discriminate].
    + split; [exact H0|]. apply Qdiv_Z_le_1; [unfold lenZ; lia|exact Hpos].
Qed.

Lemma senior_adjustment_unit (adjust : bool) (q : Q) :
  in_unit_interval q -> in_unit_interval (if adjust then q * 0.7 else q)%Q.
Proof.
  intros [H0 H1]. destruct adjust; [|now split].
  split.
  - apply Qmult_le_0_compat; [exact H0|discriminate].
  - apply Qle_trans with (1 * 0.7)%Q; [|discriminate].
    apply Qmult_le_compat_r; [exact H1|discriminate].
Qed.

(** The experience scorer raises exactly when the quotient of the years does
    not fit a double; otherwise its score lies between 0 and 1. *)
Lemma experience_score_unit (now_year : Z) (cv : CVData)
      (reqs : JobRequirements) (jd : string) :
  0 <= required_experience_years reqs ->
  (exists score,
      _calculate_experience_match now_year cv reqs jd
      = Ok (score, relevant_experience_of jd cv)
      /\ in_unit_interval score)
  \/ (_calculate_experience_match now_year cv reqs jd = Raise OverflowError
      /\ required_experience_years reqs <> 0
      /\ FLOAT_OVERFLOW * required_experience_years reqs
         <= get_total_experience_years now_year cv).
Proof.
  intro Hreq. pose proof (total_years_nonneg now_year cv) as Hyears.
  unfold _calculate_experience_match.
  destruct (required_experience_years reqs =? 0) eqn:E0.
  - left. cbn [bind]. eexists. split; [reflexivity|].
    apply senior_adjustment_unit.
    destruct (_ >? 0); split; discriminate.
  - apply Z.eqb_neq in E0.
    destruct (true_div (get_total_experience_years now_year cv)
                (required_experience_years reqs)) as [q|e] eqn:Ediv.
    + left. apply true_div_inv in Ediv as [_ ->].
      assert (H0 : (0 <= inject_Z (get_total_experience_years now_year cv)
                        / inject_Z (required_experience_years reqs))%Q)
        by (apply Qdiv_Z_nonneg; lia).
      destruct (_ >=? _) eqn:Ege; cbn [bind]; eexists;
        (split; [reflexivity|]); apply senior_adjustment_unit.
      * now apply py_min_1_unit.
      * split; [exact H0|]. apply Qdiv_Z_le_1; [|lia].
        rewrite Z.geb_leb in Ege. apply Z.leb_gt in Ege. lia.
    + right. apply true_div_raises in Ediv as [[H _]|[_ [H ->]]]; [contradiction|].
      split; [|split; [exact E0|lia]].
      now destruct (_ >=? _).
Qed.

Lemma fold_max_ge (l : list Z) (x : Z) : x <= fold_left Z.max l x.
Proof.
  revert x. induction l as [|y l IH]; intro x; cbn [fold_left]; [lia|].
  specialize (IH (Z.max x y)). lia.
Qed.

Lemma fold_max_le (bound : Z) (l : list Z) (x : Z) :
  x <= bound -> Forall (fun y => y <= bound) l -> fold_left Z.max l x <= bound.
Proof.
  revert x. induction l as [|y l IH]; intros x Hx Hl; cbn [fold_left]; [lia|].
  inversion Hl; subst. apply IH; [lia|assumption].
Qed.

Lemma degree_level_range (edu : Education) : 1 <= degree_level edu <= 4.
Proof.
  unfold degree_level.
  destruct (_ || _); [lia|]. destruct (PyStr.contains "master" _); [lia|].
  destruct (PyStr.contains "bachelor" _); lia.
Qed.

Lemma education_score_unit (cv : CVData) (reqs : JobRequirements) :
  exists score,
    _calculate_education_match cv reqs = Ok score /\ in_unit_interval score.
Proof.
  unfold _calculate_education_match.
  destruct (requires_degree reqs); cbn [negb];
    [|eexists; split; [reflexivity|split; discriminate]].
  destruct (0 <? List.length (education cv))%nat;
    [|eexists; split; [reflexivity|split; discriminate]].
  assert (Hrange : 1 <= py_max_default 1 (map degree_level (education cv)) <= 4).
  { unfold py_max_default. destruct (education cv) as [|e l]; cbn [map]; [lia|].
    pose proof (degree_level_range e).
    split.
    - pose proof (fold_max_ge (map degree_level l) (degree_level e)). lia.
    - apply fold_max_le; [lia|]. apply Forall_map, Forall_forall.
      intros x _. apply degree_level_range. }
  rewrite true_div_defined.
  - cbn [bind]. eexists. split; [reflexivity|]. apply py_min_1_unit.
    apply Qdiv_Z_nonneg; lia.
  - discriminate.
  - pose proof FLOAT_OVERFLOW_large. lia.
Qed.

Lemma weighted_overall_unit (sk ex ed : Q) :
  in_unit_interval sk -> in_unit_interval ex -> in_unit_interval ed ->
  in_unit_interval (weighted_overall sk ex ed).
Proof.
  unfold in_unit_interval, weighted_overall. cbn [w_skills w_experience w_education weights].
  intros [? ?] [? ?] [? ?]. split; lra.
Qed.

(** C8.  For a requirement set with a non-negative number of required years,
    scoring a candidate either yields skill, experience, education and
    overall scores that all lie in [0,1], or raises [OverflowError]; the
    latter happens only when years are required and the candidate's years
    divided by them do not fit a double. *)
Theorem scores_in_unit_interval
        (cosine : string -> string -> Q) (now_year : Z)
        (cv : CVData) (reqs : JobRequirements) (jd : string) :
  0 <= required_experience_years reqs ->
  (exists s,
      _calculate_matching_scores cosine now_year cv reqs jd = Ok s
      /\ in_unit_interval (sc_skills s)
      /\ in_unit_interval (sc_experience s)
      /\ in_unit_interval (sc_education s)
      /\ in_unit_interval (sc_overall s))
  \/ (_calculate_matching_scores cosine now_year cv reqs jd = Raise OverflowError
      /\ required_experience_years reqs <> 0
      /\ FLOAT_OVERFLOW * required_experience_years reqs
         <= get_total_experience_years now_year cv).
Proof.
  intro Hreq. unfold _calculate_matching_scores.
  destruct (skill_score_unit cosine cv reqs) as [sk [m [-> Hsk]]].
  destruct (education_score_unit cv reqs) as [ed [Hed Hedu]].
  destruct (experience_score_unit now_year cv reqs jd Hreq)
    as [[ex [-> Hex]]|[-> Hover]].
  - left. cbn [bind]. rewrite Hed. cbn [bind]. eexists.
    split; [reflexivity|]. cbn [sc_skills sc_experience sc_education sc_overall].
    repeat split; try apply Hsk; try apply Hex; try apply Hedu;
      now apply weighted_overall_unit.
  - right. cbn [bind]. split; [reflexivity|exact Hover].
Qed.

Lemma scores_in_unit_interval_witness :
  0 <= required_experience_years
         Samples.senior_python_reqs
  /\ ((exists s,
          _calculate_matching_scores Samples.no_similarity 2026 Samples.ann
            Samples.senior_python_reqs
            Samples.senior_python_job = Ok s
          /\ in_unit_interval (sc_skills s)
          /\ in_unit_interval (sc_experience s)
          /\ in_unit_interval (sc_education s)
          /\ in_unit_interval (sc_overall s))
      \/ (_calculate_matching_scores Samples.no_similarity 2026 Samples.ann
            Samples.senior_python_reqs
            Samples.senior_python_job = Raise OverflowError
          /\ required_experience_years
               Samples.senior_python_reqs <> 0
          /\ FLOAT_OVERFLOW
             * required_experience_years
                 Samples.senior_python_reqs
             <= get_total_experience_years 2026 Samples.ann)).
Proof.
  assert (H : 0 <= required_experience_years
                     Samples.senior_python_reqs)
    by (vm_compute; discriminate).
  split; [exact H|].
  apply (scores_in_unit_interval Samples.no_similarity 2026 Samples.ann
           Samples.senior_python_reqs
           Samples.senior_python_job H).
Defined.

(** ** C9: explanations and scoring *)

(** C9 fails on the code.  The explanation is built inside the [try] block of
    the candidate, and formatting the candidate's years with one decimal
    converts them to a float.  For a candidate whose years are beyond the
    range of a double and a job that asks for as many, scoring succeeds
    (the quotient is 1) but the explanation raises [OverflowError], so the
    candidate is returned without explanations and dropped with them. *)
Theorem explanation_drops_candidate :
  _extract_job_requirements Samples.insertion_order Samples.huge_job
  = Ok Samples.huge_reqs
  /\ _generate_explanation 2026 Samples.methuselah Samples.huge_reqs
       {| sc_overall := 0.69; sc_skills := 0.5; sc_experience := 1;
          sc_education := 0.7; sc_matched_skills := [];
          sc_relevant_experience := [] |}
     = Raise OverflowError
  /\ find_matches Samples.no_similarity 2026 Samples.insertion_order
       Samples.huge_job [ValidDict Samples.methuselah] 5 true
     = Ok []
  /\ result_map
       (map (fun r => (candidate_name r, Qred (overall_score r),
                       Qred (skill_match_score r),
                       Qred (experience_match_score r),
                       Qred (education_match_score r))))
       (find_matches Samples.no_similarity 2026 Samples.insertion_order
          Samples.huge_job [ValidDict Samples.methuselah] 5 false)
     = Ok [("Methuselah", 0.69%Q, (1 # 2)%Q, 1%Q, 0.7%Q)]
  /\ result_map (map without_explanation)
       (find_matches Samples.no_similarity 2026 Samples.insertion_order
          Samples.huge_job [ValidDict Samples.methuselah] 5 true)
     <> result_map (map without_explanation)
          (find_matches Samples.no_similarity 2026 Samples.insertion_order
             Samples.huge_job [ValidDict Samples.methuselah] 5 false).
Proof.
  split; [vm_compute; reflexivity|].
  split; [vm_compute; reflexivity|].
  split; [vm_compute; reflexivity|].
  split; [vm_compute; reflexivity|].
  intro H. apply (f_equal (result_map (@List.length _))) in H.
  vm_compute in H. discriminate.
Qed.

(** Outside that corner the two runs agree: when the years of every
    candidate fit a double, the results with and without explanations differ
    in the explanation only. *)

Lemma generate_explanation_defined (now_year : Z) (cv : CVData)
      (reqs : JobRequirements) (s : Scores) :
  get_total_experience_years now_year cv < FLOAT_OVERFLOW ->
  0 <= required_experience_years reqs < INT_STR_LIMIT ->
  exists text, _generate_explanation now_year cv reqs s = Ok text.
Proof.
  intros Hlt Hreq. pose proof (total_years_nonneg now_year cv) as H0.
  unfold _generate_explanation.
  destruct (required_experience_years reqs >? 0); cbn [bind].
  - unfold format_1f, py_str.
    replace (FLOAT_OVERFLOW <=? Z.abs (get_total_experience_years now_year cv))
      with false by (symmetry; apply Z.leb_gt; lia).
    replace (INT_STR_LIMIT <=? Z.abs (required_experience_years reqs))
      with false by (symmetry; apply Z.leb_gt; lia).
    destruct (_ >=? _); cbn [bind]; eexists; reflexivity.
  - eexists. reflexivity.
Qed.

Lemma match_candidate_without_explanation
      (cosine : string -> string -> Q) (now_year : Z) (reqs : JobRequirements)
      (jd : string) (d : CVDict) :
  0 <= required_experience_years reqs < INT_STR_LIMIT ->
  (forall cv, d = ValidDict cv ->
              get_total_experience_years now_year cv < FLOAT_OVERFLOW) ->
  match match_candidate cosine now_year reqs jd true d with
  | Ok r => [without_explanation r]
  | Raise _ => []
  end
  = match match_candidate cosine now_year reqs jd false d with
    | Ok r => [without_explanation r]
    | Raise _ => []
    end.
Proof.
  intros Hreq Hd. unfold match_candidate.
  destruct d as [cv|]; cbn [CVData_of_dict bind]; [|reflexivity].
  destruct (_calculate_matching_scores cosine now_year cv reqs jd) as [s|];
    cbn [bind]; [|reflexivity].
  destruct (generate_explanation_defined now_year cv reqs s (Hd cv eq_refl)
              Hreq)
    as [text ->].
  reflexivity.
Qed.

Lemma scored_without_explanation
      (cosine : string -> string -> Q) (now_year : Z) (reqs : JobRequirements)
      (jd : string) (cvs : list CVDict) :
  0 <= required_experience_years reqs < INT_STR_LIMIT ->
  (forall cv, In (ValidDict cv) cvs ->
              get_total_experience_years now_year cv < FLOAT_OVERFLOW) ->
  map without_explanation (scored_in_input_order cosine now_year reqs jd true cvs)
  = map without_explanation
      (scored_in_input_order cosine now_year reqs jd false cvs).
Proof.
  unfold scored_in_input_order.
  intro Hreq.
  induction cvs as [|d cvs IH]; intro Hall; [reflexivity|].
  cbn [flat_map]. rewrite !map_app, IH by (intros cv Hin; apply Hall; now right).
  f_equal.
  pose proof (match_candidate_without_explanation cosine now_year reqs jd d
                Hreq) as H.
  destruct (match_candidate cosine now_year reqs jd true d);
    destruct (match_candidate cosine now_year reqs jd false d);
    apply H; intros cv ->; apply Hall; now left.
Qed.

Lemma sort_desc_map {A B : Type} (keyA : A -> Q) (keyB : B -> Q) (f : A -> B)
      (l : list A) :
  (forall x, keyB (f x) = keyA x) ->
  map f (sort_desc keyA l) = sort_desc keyB (map f l).
Proof.
  intro Hkey.
  assert (Hins : forall x l', map f (insert_desc keyA x l')
                              = insert_desc keyB (f x) (map f l')).
  { intros x l'. induction l' as [|y l' IH]; [reflexivity|].
    cbn [insert_desc map]. rewrite !Hkey.
    destruct (Qltb (keyA x) (keyA y)); cbn [map]; [now rewrite IH|reflexivity]. }
  induction l as [|x l IH]; [reflexivity|].
  cbn [sort_desc fold_right map]. fold (sort_desc keyA l).
  fold (sort_desc keyB (map f l)). now rewrite Hins, IH.
Qed.

Lemma slice_to_map {A B : Type} (f : A -> B) (k : Z) (l : list A) :
  map f (slice_to k l) = slice_to k (map f l).
Proof.
  unfold slice_to. rewrite length_map.
  destruct (0 <=? k); symmetry; apply firstn_map.
Qed.

(** X20.  When the total years of every candidate fit a double, the runs
    with and without explanations end the same way, and when they return,
    they return the same candidates in the same order with the same scores
    and evidence; only the explanation differs. *)
Lemma find_matches_explanation_independent
      (cosine : string -> string -> Q) (now_year : Z)
      (set_iter : list string -> list string)
      (jd : string) (cvs : list CVDict) (top_k : Z) :
  (forall cv, In (ValidDict cv) cvs ->
              get_total_experience_years now_year cv < FLOAT_OVERFLOW) ->
  result_map (map without_explanation)
    (find_matches cosine now_year set_iter jd cvs top_k true)
  = result_map (map without_explanation)
      (find_matches cosine now_year set_iter jd cvs top_k false).
Proof.
  intro Hall.
  destruct (_extract_job_requirements set_iter jd) as [reqs|e] eqn:Hreq.
  - rewrite !(find_matches_ok _ _ _ _ _ _ _ reqs (or_introl Hreq)).
    cbn [result_map]. f_equal. rewrite !slice_to_map.
    rewrite !(sort_desc_map overall_score overall_score without_explanation)
      by reflexivity.
    rewrite scored_without_explanation; [reflexivity| |exact Hall].
    apply (extraction_inv set_iter jd reqs Hreq).
  - destruct cvs as [|d cvs]; [reflexivity|].
    now rewrite !(find_matches_raise _ _ _ _ _ _ _ e Hreq) by discriminate.
Qed.

(** ** The requirement extractor *)

Lemma extracted_years_nonneg (set_iter : list string -> list string)
      (jd : string) (reqs : JobRequirements) :
  _extract_job_requirements set_iter jd = Ok reqs ->
  0 <= required_experience_years reqs.
Proof. intro H. apply (extraction_inv set_iter jd reqs H). Qed.

Lemma vocabulary_NoDup : NoDup vocabulary.
Proof.
  assert (H : nodup string_dec vocabulary = vocabulary)
    by (vm_compute; reflexivity).
  rewrite <- H. apply NoDup_nodup.
Qed.

Lemma fold_set_add_filter (keep : string -> bool) (l acc : list string) :
  NoDup l -> (forall x, In x l -> ~ In x acc) ->
  fold_left (fun s skill => if keep skill then set_add skill s else s) l acc
  = (acc ++ filter keep l)%list.
Proof.
  revert acc. induction l as [|x l IH]; intros acc Hnd Hfresh;
    cbn [fold_left filter].
  - now rewrite app_nil_r.
  - apply NoDup_cons_iff in Hnd as [Hx Hnd].
    destruct (keep x).
    + unfold set_add.
      destruct (PyStr.mem x acc) eqn:Hm.
      * apply mem_In in Hm. exfalso. apply (Hfresh x); [now left|exact Hm].
      * rewrite IH; [now rewrite <- app_assoc|exact Hnd|].
        intros y Hy Hin. apply in_app_or in Hin as [Hin|[<-|[]]].
        -- apply (Hfresh y); [now right|exact Hin].
        -- contradiction.
    + apply IH; [exact Hnd|]. intros y Hy. apply Hfresh. now right.
Qed.

(** Before the set is turned into a list, the skills found are the vocabulary
    entries that occur in the text, in vocabulary order. *)
Lemma found_skills_vocabulary (text : string) :
  found_skills text = filter (fun skill => PyStr.contains skill text) vocabulary.
Proof.
  unfold found_skills, vocabulary.
  assert (Hflat : forall cats acc,
             fold_left
               (fun s (cat : string * list string) =>
                  fold_left
                    (fun s skill =>
                       if PyStr.contains skill text then set_add skill s else s)
                    (snd cat) s) cats acc
             = fold_left
                 (fun s skill =>
                    if PyStr.contains skill text then set_add skill s else s)
                 (flat_map snd cats) acc).
  { induction cats as [|cat cats IH]; intro acc; [reflexivity|].
    cbn [fold_left flat_map]. now rewrite fold_left_app, IH. }
  rewrite Hflat.
  apply (fold_set_add_filter (fun skill => PyStr.contains skill text)
           (flat_map snd skill_categories) []).
  - apply vocabulary_NoDup.
  - intros x _ [].
Qed.

(** X18.  Whatever the iteration order of the set, the extractor raises
    [ValueError] when [int] refuses a number and otherwise returns, with
    required skills that are exactly the vocabulary entries that occur in
    the lower-cased job description, each once. *)
Lemma extracted_skills_distinct (set_iter : list string -> list string)
      (jd : string) :
  (forall l, Permutation (set_iter l) l) ->
  if number_too_long jd
  then _extract_job_requirements set_iter jd = Raise ValueError
  else
    exists reqs,
      _extract_job_requirements set_iter jd = Ok reqs
      /\ Permutation (required_skills reqs)
           (filter (fun skill => PyStr.contains skill (PyStr.lower jd))
              vocabulary)
      /\ NoDup (required_skills reqs).
Proof.
  intros Hperm. rewrite extraction_cases.
  destruct (number_too_long jd); [reflexivity|].
  eexists. split; [reflexivity|]. cbn [required_skills].
  pose proof (Hperm (found_skills (PyStr.lower jd))) as H.
  rewrite found_skills_vocabulary in H |- *. split; [exact H|].
  apply (Permutation_NoDup (Permutation_sym H)).
  apply NoDup_filter, vocabulary_NoDup.
Qed.

(** In insertion order the required skills follow the vocabulary. *)
Lemma extracted_skills_insertion_order (jd : string) (reqs : JobRequirements) :
  _extract_job_requirements Samples.insertion_order jd = Ok reqs ->
  required_skills reqs
  = filter (fun skill => PyStr.contains skill (PyStr.lower jd)) vocabulary.
Proof.
  intro Hreq.
  destruct (extraction_inv Samples.insertion_order jd reqs Hreq) as [_ [-> _]].
  apply found_skills_vocabulary.
Qed.

(** ** The results returned by [find_matches] *)

Lemma slice_to_In {A : Type} (k : Z) (l : list A) (x : A) :
  In x (slice_to k l) -> In x l.
Proof.
  assert (H : forall n, In x (firstn n l) -> In x l).
  { intros n Hin. rewrite <- (firstn_skipn n l). apply in_or_app. now left. }
  unfold slice_to. destruct (0 <=? k); apply H.
Qed.

(** Every result comes from a valid candidate whose scores were computed
    against the requirements extracted. *)
Lemma find_matches_result_scores
      (cosine : string -> string -> Q) (now_year : Z)
      (set_iter : list string -> list string)
      (jd : string) (cvs : list CVDict) (top_k : Z) (incl : bool)
      (out : list MatchResult) (r : MatchResult) :
  find_matches cosine now_year set_iter jd cvs top_k incl = Ok out ->
  In r out ->
  exists reqs cv s,
    _extract_job_requirements set_iter jd = Ok reqs
    /\ In (ValidDict cv) cvs
    /\ _calculate_matching_scores cosine now_year cv reqs jd = Ok s
    /\ overall_score r = sc_overall s
    /\ skill_match_score r = sc_skills s
    /\ experience_match_score r = sc_experience s
    /\ education_match_score r = sc_education s
    /\ matched_skills r = sc_matched_skills s
    /\ relevant_experience r = sc_relevant_experience s.
Proof.
  intros Hfm Hin.
  destruct (find_matches_inv _ _ _ _ _ _ _ _ Hfm) as [reqs [Hreq ->]].
  apply slice_to_In in Hin.
  apply (Permutation_in _ (sort_desc_perm overall_score _)) in Hin.
  unfold scored_in_input_order in Hin. apply in_flat_map in Hin as [d [Hd Hr]].
  destruct Hreq as [Hreq | ->]; [|destruct Hd].
  unfold match_candidate in Hr.
  destruct d as [cv|]; cbn [CVData_of_dict bind] in Hr; [|destruct Hr].
  destruct (_calculate_matching_scores cosine now_year cv reqs jd)
    as [s|] eqn:Hs; cbn [bind] in Hr; [|destruct Hr].
  destruct (if incl then _ else _) as [text|]; cbn [bind] in Hr; [|destruct Hr].
  destruct Hr as [<-|[]]. exists reqs, cv, s.
  split; [exact Hreq|]. split; [exact Hd|]. split; [exact Hs|].
  cbn. repeat split.
Qed.

Lemma matching_scores_bounds
      (cosine : string -> string -> Q) (now_year : Z)
      (cv : CVData) (reqs : JobRequirements) (jd : string) (s : Scores) :
  0 <= required_experience_years reqs ->
  _calculate_matching_scores cosine now_year cv reqs jd = Ok s ->
  in_unit_interval (sc_skills s) /\ in_unit_interval (sc_experience s)
  /\ in_unit_interval (sc_education s) /\ in_unit_interval (sc_overall s).
Proof.
  intros Hreq. unfold _calculate_matching_scores.
  destruct (skill_score_unit cosine cv reqs) as [sk [m [-> Hsk]]].
  destruct (education_score_unit cv reqs) as [ed [-> Hed]].
  destruct (experience_score_unit now_year cv reqs jd Hreq)
    as [[ex [-> Hex]]|[-> _]]; cbn [bind]; [|discriminate].
  intros [= <-]. cbn [sc_skills sc_experience sc_education sc_overall].
  repeat split; try apply Hsk; try apply Hex; try apply Hed;
    now apply weighted_overall_unit.
Qed.

(** X19.  Every result that [find_matches] returns has its four scores in
    [0,1] and its overall score equal to the weighted sum of the other
    three. *)
Lemma find_matches_results_well_scored
      (cosine : string -> string -> Q) (now_year : Z)
      (set_iter : list string -> list string)
      (jd : string) (cvs : list CVDict) (top_k : Z) (incl : bool)
      (out : list MatchResult) (r : MatchResult) :
  find_matches cosine now_year set_iter jd cvs top_k incl = Ok out ->
  In r out ->
  in_unit_interval (skill_match_score r)
  /\ in_unit_interval (experience_match_score r)
  /\ in_unit_interval (education_match_score r)
  /\ in_unit_interval (overall_score r)
  /\ overall_score r
     = weighted_overall (skill_match_score r) (experience_match_score r)
         (education_match_score r).
Proof.
  intros Hfm Hin.
  destruct (find_matches_result_scores _ _ _ _ _ _ _ _ _ Hfm Hin)
    as [reqs [cv [s [Hreq [_ [Hs [-> [-> [-> [-> _]]]]]]]]]].
  pose proof (matching_scores_bounds cosine now_year cv _ jd s
                (extracted_years_nonneg set_iter jd reqs Hreq) Hs)
    as [H1 [H2 [H3 H4]]].
  repeat split; try apply H1; try apply H2; try apply H3; try apply H4.
  unfold _calculate_matching_scores in Hs.
  destruct (_calculate_skill_match cosine cv _) as [[sk m]|]; [|discriminate].
  destruct (_calculate_experience_match now_year cv _ jd) as [[ex rel]|];
    [|discriminate].
  destruct (_calculate_education_match cv _) as [ed|]; [|discriminate].
  cbn in Hs. injection Hs as <-. reflexivity.
Qed.

(** * Further properties of the code *)

(** ** [find_matches] *)





(** A list of invalid dicts alone is not the same as no list when [int]
    refuses the number: the first call raises, the second returns. *)
Lemma find_matches_invalid_only_raises :
  find_matches Samples.no_similarity 2026 Samples.insertion_order
    Samples.too_long_job [InvalidDict] 5 true
  = Raise ValueError
  /\ find_matches Samples.no_similarity 2026 Samples.insertion_order
       Samples.too_long_job (filter is_valid_dict [InvalidDict]) 5 true
     = Ok [].
Proof. split; vm_compute; reflexivity. Qed.

(** X2.  Results for different values of [top_k] are consistent: for
    [0 <= k <= k'] the call for [k] ends as the call for [k'] does, and its
    result is the first [k] entries of the result for [k']. *)
Theorem find_matches_top_k_prefix
        (cosine : string -> string -> Q) (now_year : Z)
        (set_iter : list string -> list string)
        (jd : string) (cvs : list CVDict) (k k' : Z) (incl : bool) :
  0 <= k -> k <= k' ->
  find_matches cosine now_year set_iter jd cvs k incl
  = result_map (firstn (Z.to_nat k))
      (find_matches cosine now_year set_iter jd cvs k' incl).
Proof.
  intros Hk Hkk'.
  destruct (_extract_job_requirements set_iter jd) as [reqs|e] eqn:Hreq.
  - rewrite !(find_matches_ok _ _ _ _ _ _ _ reqs (or_introl Hreq)).
    cbn [result_map]. rewrite !slice_to_nonneg by lia. rewrite firstn_firstn.
    do 2 f_equal. lia.
  - destruct cvs as [|d cvs]; [cbn; now rewrite firstn_nil|].
    now rewrite !(find_matches_raise _ _ _ _ _ _ _ e Hreq) by discriminate.
Qed.

Lemma find_matches_top_k_prefix_witness :
  0 <= 1 /\ 1 <= 5
  /\ find_matches Samples.no_similarity 2026 Samples.insertion_order "python"
       [ValidDict Samples.ann; ValidDict Samples.bob] 1 true
     = result_map (firstn (Z.to_nat 1))
         (find_matches Samples.no_similarity 2026 Samples.insertion_order
            "python" [ValidDict Samples.ann; ValidDict Samples.bob] 5 true).
Proof.
  split; [lia|]. split; [lia|].
  apply (find_matches_top_k_prefix Samples.no_similarity 2026
           Samples.insertion_order "python"
           [ValidDict Samples.ann; ValidDict Samples.bob] 1 5 true); lia.
Defined.

Lemma scored_length
      (cosine : string -> string -> Q) (now_year : Z) (reqs : JobRequirements)
      (jd : string) (incl : bool) (cvs : list CVDict) :
  (List.length (scored_in_input_order cosine now_year reqs jd incl cvs)
   <= List.length (filter is_valid_dict cvs))%nat.
Proof.
  unfold scored_in_input_order.
  induction cvs as [|d cvs IH]; [cbn; lia|].
  cbn [flat_map filter]. rewrite length_app.
  destruct d as [cv|]; cbn [is_valid_dict].
  - destruct (match_candidate _ _ _ _ _ _); cbn [List.length]; lia.
  - cbn. exact IH.
Qed.

(** X3.  For a non-negative [top_k] the list returned has at most [top_k]
    entries and at most one entry per valid candidate dict. *)
Theorem find_matches_length
        (cosine : string -> string -> Q) (now_year : Z)
        (set_iter : list string -> list string)
        (jd : string) (cvs : list CVDict) (top_k : Z) (incl : bool)
        (out : list MatchResult) :
  0 <= top_k ->
  find_matches cosine now_year set_iter jd cvs top_k incl = Ok out ->
  lenZ out <= top_k
  /\ (List.length out <= List.length (filter is_valid_dict cvs))%nat.
Proof.
  intros Hk Hfm.
  destruct (find_matches_inv _ _ _ _ _ _ _ _ Hfm) as [reqs [_ ->]].
  rewrite slice_to_nonneg by exact Hk.
  unfold lenZ. rewrite length_firstn.
  rewrite (Permutation_length (sort_desc_perm overall_score _)).
  pose proof (scored_length cosine now_year reqs jd incl cvs).
  split; lia.
Qed.

Lemma find_matches_length_witness :
  0 <= 1
  /\ find_matches Samples.no_similarity 2026 Samples.insertion_order ""
       [ValidDict Samples.newcomer; InvalidDict; ValidDict Samples.newcomer]
       1 false
     = Ok [Samples.newcomer_result]
  /\ lenZ [Samples.newcomer_result] <= 1
  /\ (List.length [Samples.newcomer_result]
      <= List.length
           (filter is_valid_dict
              [ValidDict Samples.newcomer; InvalidDict;
               ValidDict Samples.newcomer]))%nat.
Proof.
  assert (H : find_matches Samples.no_similarity 2026 Samples.insertion_order ""
                [ValidDict Samples.newcomer; InvalidDict;
                 ValidDict Samples.newcomer] 1 false
              = Ok [Samples.newcomer_result])
    by (vm_compute; reflexivity).
  split; [lia|]. split; [exact H|].
  apply (find_matches_length Samples.no_similarity 2026 Samples.insertion_order
           ""
           [ValidDict Samples.newcomer; InvalidDict; ValidDict Samples.newcomer]
           1 false [Samples.newcomer_result]); [lia|exact H].
Defined.

Lemma find_matches_result_candidate
      (cosine : string -> string -> Q) (now_year : Z)
      (set_iter : list string -> list string)
      (jd : string) (cvs : list CVDict) (top_k : Z) (incl : bool)
      (out : list MatchResult) (r : MatchResult) :
  find_matches cosine now_year set_iter jd cvs top_k incl = Ok out ->
  In r out ->
  exists reqs cv,
    _extract_job_requirements set_iter jd = Ok reqs
    /\ In (ValidDict cv) cvs
    /\ match_candidate cosine now_year reqs jd incl (ValidDict cv) = Ok r.
Proof.
  intros Hfm Hin.
  destruct (find_matches_inv _ _ _ _ _ _ _ _ Hfm) as [reqs [Hreq ->]].
  apply slice_to_In in Hin.
  apply (Permutation_in _ (sort_desc_perm overall_score _)) in Hin.
  unfold scored_in_input_order in Hin. apply in_flat_map in Hin as [d [Hd Hr]].
  destruct Hreq as [Hreq | ->]; [|destruct Hd].
  destruct d as [cv|]; [|destruct Hr].
  exists reqs, cv. split; [exact Hreq|]. split; [exact Hd|].
  destruct (match_candidate _ _ _ _ _ _) as [r'|]; [|destruct Hr].
  destruct Hr as [<-|[]]. reflexivity.
Qed.

(** X4.  Every result identifies its candidate: it carries one of the input
    dicts and the file name of that CV, and its candidate name is the name in
    the CV, or Unknown when that is empty, so it is never empty.  Without
    explanations the explanation is the empty string. *)
Theorem find_matches_result_identity
        (cosine : string -> string -> Q) (now_year : Z)
        (set_iter : list string -> list string)
        (jd : string) (cvs : list CVDict) (top_k : Z) (incl : bool)
        (out : list MatchResult) (r : MatchResult) :
  find_matches cosine now_year set_iter jd cvs top_k incl = Ok out ->
  In r out ->
  exists cv,
    In (ValidDict cv) cvs
    /\ cv_data r = ValidDict cv
    /\ cv_filename r = filename cv
    /\ candidate_name r
       = (if PyStr.is_empty (name (personal_info cv)) then "Unknown"
          else name (personal_info cv))
    /\ candidate_name r <> ""
    /\ (incl = false -> explanation r = []).
Proof.
  intros Hfm Hin.
  destruct (find_matches_result_candidate _ _ _ _ _ _ _ _ _ Hfm Hin)
    as [reqs [cv [_ [Hcv Hr]]]].
  exists cv. split; [exact Hcv|].
  unfold match_candidate in Hr. cbn [CVData_of_dict bind] in Hr.
  destruct (_calculate_matching_scores _ _ _ _ _) as [s|]; [|discriminate].
  cbn [bind] in Hr.
  destruct (if incl then _ else _) as [text|] eqn:Htext; [|discriminate].
  cbn [bind] in Hr. injection Hr as <-.
  cbn [cv_data cv_filename candidate_name explanation].
  repeat split.
  - destruct (name (personal_info cv)); discriminate.
  - intros ->. now injection Htext.
Qed.

Lemma find_matches_result_identity_witness :
  find_matches Samples.no_similarity 2026 Samples.insertion_order ""
    [ValidDict Samples.newcomer] 5 false
  = Ok [Samples.newcomer_result]
  /\ In Samples.newcomer_result [Samples.newcomer_result]
  /\ exists cv,
       In (ValidDict cv) [ValidDict Samples.newcomer]
       /\ cv_data Samples.newcomer_result = ValidDict cv
       /\ cv_filename Samples.newcomer_result = filename cv
       /\ candidate_name Samples.newcomer_result
          = (if PyStr.is_empty (name (personal_info cv)) then "Unknown"
             else name (personal_info cv))
       /\ candidate_name Samples.newcomer_result <> ""
       /\ (false = false -> explanation Samples.newcomer_result = []).
Proof.
  assert (H : find_matches Samples.no_similarity 2026 Samples.insertion_order ""
                [ValidDict Samples.newcomer] 5 false
              = Ok [Samples.newcomer_result])
    by (vm_compute; reflexivity).
  assert (Hin : In Samples.newcomer_result [Samples.newcomer_result])
    by (left; reflexivity).
  split; [exact H|]. split; [exact Hin|].
  apply (find_matches_result_identity Samples.no_similarity 2026
           Samples.insertion_order "" [ValidDict Samples.newcomer] 5 false
           [Samples.newcomer_result] Samples.newcomer_result H Hin).
Defined.

(** ** [bulk_match] *)

Lemma dict_set_fresh {V : Type} (k : string) (v : V) (d : list (string * V)) :
  ~ In k (dict_keys d) -> dict_set k v d = (d ++ [(k, v)])%list.
Proof.
  induction d as [|[k' v'] d IH]; intro Hk; [reflexivity|].
  cbn [dict_set]. destruct (String.eqb_spec k k') as [->|Hne].
  - exfalso. apply Hk. now left.
  - cbn. rewrite IH; [reflexivity|]. intro H. apply Hk. now right.
Qed.





(** One job description that [find_matches] raises on makes the whole batch
    raise. *)
Lemma bulk_match_raises
      (cosine : string -> string -> Q) (now_year : Z)
      (set_iter : list string -> list string)
      (jds : list string) (cvs : list CVDict) (jd : string) :
  In jd jds -> number_too_long jd = true -> cvs <> [] ->
  bulk_match cosine now_year set_iter jds cvs = Raise ValueError.
Proof.
  intros Hin Hlong Hne. unfold bulk_match.
  assert (Hfm : forall jd',
             find_matches cosine now_year set_iter jd' cvs 5 true
             = Raise ValueError
             \/ exists out,
                 find_matches cosine now_year set_iter jd' cvs 5 true = Ok out).
  { intro jd'. pose proof (extraction_cases set_iter jd') as Hreq.
    destruct (number_too_long jd').
    - left. now apply find_matches_raise.
    - right. eexists. apply find_matches_ok. left. exact Hreq. }
  assert (Hstuck : forall (l : list (Z * string)),
             fold_left
               (fun state ij =>
                  results <- state ;;
                  matches <- find_matches cosine now_year set_iter (snd ij) cvs
                               5 true ;;
                  Ok (dict_set (job_key (fst ij)) matches results))
               l (Raise ValueError)
             = Raise ValueError).
  { induction l as [|ij l IH]; [reflexivity|exact IH]. }
  enough (H : forall l start acc,
             In jd l ->
             fold_left
               (fun state ij =>
                  results <- state ;;
                  matches <- find_matches cosine now_year set_iter (snd ij) cvs
                               5 true ;;
                  Ok (dict_set (job_key (fst ij)) matches results))
               (enumerate_from start l) (Ok acc)
             = Raise ValueError) by (apply (H jds 0 [] Hin)).
  induction l as [|jd' l IH]; intros start acc; [intros []|].
  cbn [enumerate_from fold_left fst snd bind]. intros [-> | Hl].
  - pose proof (extraction_cases set_iter jd) as Hreq. rewrite Hlong in Hreq.
    rewrite (find_matches_raise _ _ _ _ _ _ _ _ Hreq Hne). cbn [bind].
    apply Hstuck.
  - destruct (Hfm jd') as [-> | [out ->]]; cbn [bind].
    + apply Hstuck.
    + now apply IH.
Qed.



(** ** The skill scorer *)

Lemma filter_all_true {A : Type} (f : A -> bool) (l : list A) :
  (forall x, In x l -> f x = true) -> filter f l = l.
Proof.
  induction l as [|x l IH]; intro H; [reflexivity|].
  cbn [filter]. rewrite (H x (or_introl eq_refl)).
  f_equal. apply IH. intros y Hy. apply H. now right.
Qed.

Lemma Qdiv_Z_same (n : Z) : 0 < n -> (inject_Z n / inject_Z n == 1)%Q.
Proof.
  intro H. apply Qmult_inv_r. intro E.
  assert (Hlt : (inject_Z 0 < inject_Z n)%Q) by (rewrite <- Zlt_Qlt; exact H).
  rewrite E in Hlt. exact (Qlt_irrefl _ Hlt).
Qed.

(** X6.  A candidate who lists every required skill (in any letter case) is
    matched on exactly the required skills, in their order, and gets the
    skill score 1. *)
Theorem skill_match_all_listed
        (cosine : string -> string -> Q) (cv : CVData) (reqs : JobRequirements) :
  required_skills reqs <> [] ->
  (forall r, In r (required_skills reqs) ->
             In r (candidate_skill_names cv)) ->
  exists score,
    _calculate_skill_match cosine cv reqs = Ok (score, required_skills reqs)
    /\ (score == 1)%Q.
Proof.
  intros Hne Hall.
  assert (Hm : matched_skills_of cosine (required_skills reqs)
                 (candidate_skill_names cv) = required_skills reqs).
  { unfold matched_skills_of. rewrite direct_matches_filter.
    rewrite filter_all_true by (intros r Hr; apply mem_In, Hall, Hr).
    now rewrite Nat.ltb_irrefl. }
  eexists. split.
  - rewrite skill_match_defined by exact Hne. rewrite Hm. reflexivity.
  - assert (Hpos : 0 < lenZ (required_skills reqs)).
    { unfold lenZ. destruct (required_skills reqs); [contradiction|].
      cbn [List.length]. lia. }
    pose proof (Qdiv_Z_same _ Hpos) as H1.
    destruct (_ >? _); [|exact H1].
    unfold py_min.
    destruct (Qltb _ 1) eqn:E; [|reflexivity].
    apply Qltb_true in E. rewrite H1 in E. exfalso. revert E. discriminate.
Qed.

Lemma skill_match_all_listed_witness :
  required_skills
    Samples.python_java_reqs
  <> []
  /\ (forall r,
        In r (required_skills
                Samples.python_java_reqs) ->
        In r (candidate_skill_names Samples.ann))
  /\ exists score,
       _calculate_skill_match Samples.no_similarity Samples.ann
         Samples.python_java_reqs
       = Ok (score,
             required_skills
               Samples.python_java_reqs)
       /\ (score == 1)%Q.
Proof.
  assert (Hall : forall r,
             In r (required_skills
                     Samples.python_java_reqs) ->
             In r (candidate_skill_names Samples.ann)).
  { intros r [<-|[<-|[]]]; cbn; auto. }
  split; [discriminate|]. split; [exact Hall|].
  apply (skill_match_all_listed Samples.no_similarity Samples.ann
           Samples.python_java_reqs); [discriminate|exact Hall].
Defined.

(** X7.  Every matched skill is one of the candidate's skill names in lower
    case; a candidate without skills has no matched skill and, when skills
    are required, the skill score 0. *)
Theorem skill_match_within_candidate_skills
        (cosine : string -> string -> Q) (cv : CVData) (reqs : JobRequirements) :
  exists score matched,
    _calculate_skill_match cosine cv reqs = Ok (score, matched)
    /\ Forall (fun m => In m (candidate_skill_names cv)) matched
    /\ (skills cv = [] -> matched = [])
    /\ (skills cv = [] -> required_skills reqs <> [] -> score == 0)%Q.
Proof.
  destruct (required_skills reqs) as [|r0 required] eqn:Hreq.
  - exists 0.5%Q, []. unfold _calculate_skill_match. rewrite Hreq.
    split; [reflexivity|]. split; [constructor|]. split; [reflexivity|].
    intros _ H. now contradiction H.
  - destruct (matched_skills_of_spec cosine (r0 :: required)
                (candidate_skill_names cv)) as [pairs [He [_ Hd]]].
    assert (Hin : Forall (fun m => In m (candidate_skill_names cv))
                    (matched_skills_of cosine (r0 :: required)
                       (candidate_skill_names cv))).
    { rewrite He. apply Forall_app. split.
      - apply Forall_forall. intros m Hm. apply filter_In in Hm as [_ Hm].
        now apply mem_In.
      - apply Forall_map. eapply Forall_impl; [|exact Hd].
        intros rc [H _]. exact H. }
    assert (Hempty : skills cv = [] ->
                     matched_skills_of cosine (r0 :: required)
                       (candidate_skill_names cv) = []).
    { intro Hs. unfold candidate_skill_names in Hin. rewrite Hs in Hin.
      unfold candidate_skill_names. rewrite Hs. cbn [map] in Hin |- *.
      destruct (matched_skills_of cosine (r0 :: required) []) as [|m l];
        [reflexivity|].
      inversion Hin as [|? ? []]. }
    eexists. eexists. split.
    + rewrite skill_match_defined by (rewrite Hreq; discriminate).
      rewrite Hreq. reflexivity.
    + split; [exact Hin|]. split; [exact Hempty|].
      intros Hs _. rewrite (Hempty Hs).
      unfold candidate_skill_names. rewrite Hs. reflexivity.
Qed.

(** X8.  When no pair of skill names has a similarity above 0.7, the matched
    skills are the direct matches only: the required skills that the
    candidate lists, in the order of the required skills. *)
Theorem skill_match_without_similarity
        (cosine : string -> string -> Q) (cv : CVData) (reqs : JobRequirements) :
  (forall a b, (cosine a b <= 0.7)%Q) ->
  exists score,
    _calculate_skill_match cosine cv reqs
    = Ok (score,
          filter (fun r => PyStr.mem r (candidate_skill_names cv))
                 (required_skills reqs)).
Proof.
  intro Hcos.
  destruct (required_skills reqs) as [|r0 required] eqn:Hreq.
  - exists 0.5%Q. unfold _calculate_skill_match. now rewrite Hreq.
  - destruct (matched_skills_of_spec cosine (r0 :: required)
                (candidate_skill_names cv)) as [pairs [He [_ Hd]]].
    assert (Hp : pairs = []).
    { destruct pairs as [|[r c] pairs]; [reflexivity|].
      inversion Hd as [|? ? [_ Hlt] _]. cbn in Hlt.
      exfalso. exact (Qlt_not_le _ _ Hlt (Hcos r c)). }
    subst pairs. cbn [map] in He. rewrite app_nil_r in He.
    eexists. rewrite skill_match_defined by (rewrite Hreq; discriminate).
    rewrite Hreq, He. reflexivity.
Qed.

Lemma skill_match_without_similarity_witness :
  (forall a b, (Samples.no_similarity a b <= 0.7)%Q)
  /\ exists score,
       _calculate_skill_match Samples.no_similarity Samples.bob
         Samples.python_java_reqs
       = Ok (score,
             filter (fun r => PyStr.mem r (candidate_skill_names Samples.bob))
                    (required_skills
                       Samples.python_java_reqs)).
Proof.
  assert (H : forall a b, (Samples.no_similarity a b <= 0.7)%Q)
    by (intros a b; discriminate).
  split; [exact H|].
  apply (skill_match_without_similarity Samples.no_similarity Samples.bob
           Samples.python_java_reqs H).
Defined.

(** ** The experience scorer with a stated requirement *)

(** X9.  When years are required and the quotient fits a double, a candidate
    who meets the requirement scores 1 and one who falls short scores
    years / required; either value is multiplied by 0.7 when the role is
    senior and the candidate has fewer than 3 years. *)
Theorem experience_score_required_years
        (now_year : Z) (cv : CVData) (reqs : JobRequirements) (jd : string) :
  0 < required_experience_years reqs ->
  get_total_experience_years now_year cv
  < FLOAT_OVERFLOW * required_experience_years reqs ->
  exists score,
    _calculate_experience_match now_year cv reqs jd
    = Ok (score, relevant_experience_of jd cv)
    /\ (score ==
        (if get_total_experience_years now_year cv
            >=? required_experience_years reqs
         then 1
         else inject_Z (get_total_experience_years now_year cv)
              / inject_Z (required_experience_years reqs))
        * (if is_senior_role reqs && (get_total_experience_years now_year cv <? 3)
           then 0.7 else 1))%Q.
Proof.
  intros Hreq Hfit. pose proof (total_years_nonneg now_year cv) as Hyears.
  unfold _calculate_experience_match.
  replace (required_experience_years reqs =? 0) with false
    by (symmetry; apply Z.eqb_neq; lia).
  rewrite true_div_defined by lia.
  assert (Hmin : (get_total_experience_years now_year cv
                  >=? required_experience_years reqs) = true ->
                 py_min 1 (inject_Z (get_total_experience_years now_year cv)
                           / inject_Z (required_experience_years reqs)) = 1%Q).
  { intro Hge. unfold py_min. destruct (Qltb _ 1) eqn:E; [|reflexivity].
    apply Qltb_true in E. exfalso. apply (Qlt_not_le _ _ E).
    apply Qle_shift_div_l.
    - change 0%Q with (inject_Z 0). rewrite <- Zlt_Qlt. exact Hreq.
    - rewrite Qmult_1_l, <- Zle_Qle. rewrite Z.geb_leb in Hge.
      now apply Z.leb_le. }
  destruct (get_total_experience_years now_year cv
            >=? required_experience_years reqs) eqn:Hge; cbn [bind].
  - rewrite (Hmin eq_refl). eexists. split; [reflexivity|].
    destruct (is_senior_role reqs && _); [reflexivity|].
    now rewrite Qmult_1_r.
  - eexists. split; [reflexivity|].
    destruct (is_senior_role reqs && _); [reflexivity|].
    now rewrite Qmult_1_r.
Qed.

Lemma experience_score_required_years_witness :
  0 < required_experience_years
        Samples.senior_python_reqs
  /\ get_total_experience_years 2026 Samples.ann
     < FLOAT_OVERFLOW
       * required_experience_years
           Samples.senior_python_reqs
  /\ exists score,
       _calculate_experience_match 2026 Samples.ann
         Samples.senior_python_reqs
         Samples.senior_python_job
       = Ok (score, relevant_experience_of Samples.senior_python_job Samples.ann)
       /\ (score ==
           (if get_total_experience_years 2026 Samples.ann
               >=? required_experience_years
                     Samples.senior_python_reqs
            then 1
            else inject_Z (get_total_experience_years 2026 Samples.ann)
                 / inject_Z
                     (required_experience_years
                        Samples.senior_python_reqs))
           * (if is_senior_role
                   Samples.senior_python_reqs
                 && (get_total_experience_years 2026 Samples.ann <? 3)
              then 0.7 else 1))%Q.
Proof.
  assert (H1 : 0 < required_experience_years
                     Samples.senior_python_reqs)
    by (vm_compute; reflexivity).
  assert (H2 : get_total_experience_years 2026 Samples.ann
               < FLOAT_OVERFLOW
                 * required_experience_years
                     Samples.senior_python_reqs)
    by (vm_compute; reflexivity).
  split; [exact H1|]. split; [exact H2|].
  apply (experience_score_required_years 2026 Samples.ann
           Samples.senior_python_reqs
           Samples.senior_python_job H1 H2).
Defined.

(** ** The education scorer *)

Lemma fold_max_reaches (bound : Z) (l : list Z) (x : Z) :
  bound <= fold_left Z.max l x <-> bound <= x \/ Exists (fun y => bound <= y) l.
Proof.
  revert x. induction l as [|y l IH]; intro x; cbn [fold_left].
  - split; [now left|]. intros [H|H]; [exact H|inversion H].
  - rewrite IH. split.
    + intros [H|H]; [|right; now constructor 2].
      destruct (Z.max_spec x y) as [[_ E]|[_ E]]; rewrite E in H.
      * right. now constructor 1.
      * now left.
    + intros [H|H]; [left; lia|].
      inversion H as [? ? Hy|? ? Hl]; subst; [left; lia|now right].
Qed.

Lemma degree_level_names (edu : Education) :
  2 <= degree_level edu <-> names_degree edu = true.
Proof.
  unfold degree_level, names_degree. cbv zeta.
  destruct (PyStr.contains "phd" _); destruct (PyStr.contains "doctorate" _);
    destruct (PyStr.contains "master" _); destruct (PyStr.contains "bachelor" _);
    cbn; split; intro H; try reflexivity; try lia; discriminate.
Qed.

(** X10.  The education score takes one of four values: 0.7 when no degree
    is required, 0.3 when one is required and the candidate has no education
    entry, 1 when some entry names a bachelor's, master's or doctoral degree
    (phd, doctorate, master or bachelor in its degree text, in any letter
    case), and 0.5 otherwise.  The scorer never raises. *)
Theorem education_score_values (cv : CVData) (reqs : JobRequirements) :
  exists score,
    _calculate_education_match cv reqs = Ok score
    /\ (score ==
        if negb (requires_degree reqs) then 0.7
        else match education cv with
             | [] => 0.3
             | _ :: _ => if existsb names_degree (education cv) then 1 else 0.5
             end)%Q.
Proof.
  unfold _calculate_education_match.
  destruct (requires_degree reqs); cbn [negb];
    [|eexists; split; reflexivity].
  destruct (education cv) as [|e l] eqn:Hedu;
    [eexists; split; reflexivity|].
  cbn [List.length Nat.ltb Nat.leb].
  remember (py_max_default 1 (map degree_level (e :: l))) as level eqn:Hlevel.
  assert (Hrange : 1 <= level <= 4).
  { rewrite Hlevel. unfold py_max_default. cbn [map].
    pose proof (degree_level_range e). split.
    - pose proof (fold_max_ge (map degree_level l) (degree_level e)). lia.
    - apply fold_max_le; [lia|]. apply Forall_map, Forall_forall.
      intros x _. apply degree_level_range. }
  assert (Hnames : 2 <= level <-> existsb names_degree (e :: l) = true).
  { rewrite Hlevel. unfold py_max_default. cbn [map existsb].
    rewrite fold_max_reaches, orb_true_iff, degree_level_names.
    rewrite Exists_map, existsb_exists, Exists_exists.
    split; (intros [H|[x [Hx Hl]]]; [now left|right; exists x]);
      (split; [exact Hx|]); now apply degree_level_names. }
  destruct (existsb names_degree (e :: l)).
  - assert (H : level = 2 \/ level = 3 \/ level = 4)
      by (pose proof (proj2 Hnames eq_refl); lia).
    clear Hlevel Hrange Hnames.
    destruct H as [-> | [-> | ->]]; eexists; (split; [vm_compute; reflexivity|]);
      reflexivity.
  - assert (H : level = 1).
    { destruct (Z.le_gt_cases 2 level) as [H|H]; [|lia].
      apply Hnames in H. discriminate. }
    clear Hlevel Hrange Hnames. subst level.
    eexists. split; [vm_compute; reflexivity|reflexivity].
Qed.

(** ** The explanation *)

Lemma tjoin_head (sep x : text) (l : list text) :
  exists rest, tjoin sep (x :: l) = (x ++ rest)%list.
Proof.
  destruct l as [|y l]; cbn [tjoin].
  - exists []. now rewrite app_nil_r.
  - eexists. reflexivity.
Qed.

(** X11.  Building the explanation raises [OverflowError] when years are
    required and the candidate's total years do not fit a double, and
    [ValueError] when the required years are too long to be printed;
    otherwise it returns a text that starts with the pictograph and the
    sentence for the tier of the overall score (excellent from 0.8, good
    from 0.6, limited below). *)
Theorem explanation_result
        (now_year : Z) (cv : CVData) (reqs : JobRequirements) (s : Scores) :
  if (required_experience_years reqs >? 0)
     && (FLOAT_OVERFLOW <=? get_total_experience_years now_year cv)
  then _generate_explanation now_year cv reqs s = Raise OverflowError
  else if (required_experience_years reqs >? 0)
          && (INT_STR_LIMIT <=? required_experience_years reqs)
       then _generate_explanation now_year cv reqs s = Raise ValueError
       else exists rest,
           _generate_explanation now_year cv reqs s
           = Ok (tier_line (sc_overall s) ++ rest)%list.
Proof.
  pose proof (total_years_nonneg now_year cv) as Hyears.
  assert (Htier : (if Qgeb (sc_overall s) 0.8
                   then [labelled pic_excellent
                           "Excellent match for this position."]
                   else if Qgeb (sc_overall s) 0.6
                        then [labelled pic_good
                                "Good match with some areas for consideration."]
                        else [labelled pic_limited
                                "Limited match for this position."])
                  = [tier_line (sc_overall s)]).
  { unfold tier_line, Qgeb.
    destruct (Qle_bool 0.8 (sc_overall s)); [reflexivity|].
    now destruct (Qle_bool 0.6 (sc_overall s)). }
  unfold _generate_explanation. rewrite Htier. unfold format_1f, py_str.
  rewrite (Z.abs_eq _ Hyears).
  destruct (required_experience_years reqs >? 0) eqn:Hreq; cbn [andb].
  - rewrite Z.abs_eq by lia.
    destruct (FLOAT_OVERFLOW <=? get_total_experience_years now_year cv).
    + now destruct (_ >=? _).
    + destruct (INT_STR_LIMIT <=? required_experience_years reqs).
      * now destruct (_ >=? _).
      * destruct (_ >=? _); cbn [bind app];
          match goal with
          | |- exists rest, Ok (tjoin ?sep (?x :: ?l)) = _ =>
              destruct (tjoin_head sep x l) as [rest ->]; now exists rest
          end.
  - cbn [bind app].
    match goal with
    | |- exists rest, Ok (tjoin ?sep (?x :: ?l)) = _ =>
        destruct (tjoin_head sep x l) as [rest ->]; now exists rest
    end.
Qed.

(** With a long enough requirement the second case occurs: the years can be
    compared but not printed. *)
Lemma explanation_value_error :
  _generate_explanation 2026 Samples.ann
    {| required_skills := [];
       required_experience_years := 10 ^ 4300;
       requires_degree := false;
       is_senior_role := false;
       job_description_text := "" |}
    {| sc_overall := 0.5; sc_skills := 0.5; sc_experience := 0.5;
       sc_education := 0.5; sc_matched_skills := [];
       sc_relevant_experience := [] |}
  = Raise ValueError.
Proof. vm_compute. reflexivity. Qed.

(** ** Durations *)

Lemma has_char_app (sep : ascii) (a b : string) :
  PyStr.has_char sep (a ++ b) = PyStr.has_char sep a || PyStr.has_char sep b.
Proof.
  induction a as [|c a IH]; cbn; [reflexivity|].
  now rewrite IH, orb_assoc.
Qed.

Lemma before_sep_app (sep : ascii) (a b : string) :
  PyStr.has_char sep a = false ->
  PyStr.before_sep sep (a ++ String sep b) = a.
Proof.
  induction a as [|c a IH]; cbn.
  - now rewrite Ascii.eqb_refl.
  - intro H. apply orb_false_iff in H as [Hc Ha]. rewrite Hc. now rewrite IH.
Qed.

Lemma lower_has_slash (s : string) :
  PyStr.has_char "/" (PyStr.lower s) = PyStr.has_char "/" s.
Proof.
  induction s as [|c s IH]; [reflexivity|].
  cbn [PyStr.lower PyStr.has_char]. rewrite IH. f_equal.
  destruct c as [[] [] [] [] [] [] [] []]; reflexivity.
Qed.

Lemma slash_date_not_present (s : string) :
  PyStr.has_char "/" s = true ->
  PyStr.mem (PyStr.lower s) ["present"; "current"] = false.
Proof.
  intro H. rewrite <- lower_has_slash in H.
  unfold PyStr.mem. cbn [existsb].
  destruct (String.eqb_spec (PyStr.lower s) "present") as [E|_];
    [rewrite E in H; discriminate|].
  destruct (String.eqb_spec (PyStr.lower s) "current") as [E|_];
    [rewrite E in H; discriminate|].
  reflexivity.
Qed.

(** X12.  For dates written with a slash only the number before the first
    slash is read: when the parts before the slash are the integers m1 and
    m2, the duration is max (0, m2 - m1), whatever follows the slashes. *)
Theorem duration_of_slash_dates
        (now_year : Z) (e : Experience) (a b c d : string) (m1 m2 : Z) :
  start_date e = a ++ "/" ++ b ->
  end_date e = c ++ "/" ++ d ->
  PyStr.has_char "/" a = false ->
  PyStr.has_char "/" c = false ->
  PyStr.to_int a = Some m1 ->
  PyStr.to_int c = Some m2 ->
  get_duration_years now_year e = Z.max 0 (m2 - m1).
Proof.
  intros Hs He Ha Hc Hm1 Hm2. unfold get_duration_years, year_field.
  rewrite Hs, He.
  assert (Hslash : forall x y, PyStr.has_char "/" (x ++ "/" ++ y) = true).
  { intros x y. rewrite has_char_app. cbn. apply orb_true_r. }
  rewrite !Hslash. cbn [append].
  rewrite (before_sep_app "/" a b Ha), (before_sep_app "/" c d Hc), Hm1.
  rewrite (slash_date_not_present (c ++ String "/" d) (Hslash c d)).
  now rewrite Hm2.
Qed.

Lemma duration_of_slash_dates_witness :
  start_date (Samples.job "Engineer" "Acme" "03/2015" "06/2020" "")
  = "03" ++ "/" ++ "2015"
  /\ end_date (Samples.job "Engineer" "Acme" "03/2015" "06/2020" "")
     = "06" ++ "/" ++ "2020"
  /\ PyStr.has_char "/" "03" = false
  /\ PyStr.has_char "/" "06" = false
  /\ PyStr.to_int "03" = Some 3
  /\ PyStr.to_int "06" = Some 6
  /\ get_duration_years 2026 (Samples.job "Engineer" "Acme" "03/2015" "06/2020" "")
     = Z.max 0 (6 - 3).
Proof.
  repeat (split; [reflexivity|]).
  apply (duration_of_slash_dates 2026
           (Samples.job "Engineer" "Acme" "03/2015" "06/2020" "")
           "03" "2015" "06" "2020" 3 6); reflexivity.
Defined.

Lemma total_years_sum (now_year : Z) (l : list Experience) (acc : Z) :
  fold_left (fun a e => a + get_duration_years now_year e) l acc
  = acc + fold_right Z.add 0 (map (get_duration_years now_year) l).
Proof.
  revert acc. induction l as [|e l IH]; intro acc; cbn [fold_left map fold_right].
  - lia.
  - rewrite IH. lia.
Qed.

Lemma duration_nonneg (now_year : Z) (e : Experience) :
  0 <= get_duration_years now_year e.
Proof.
  unfold get_duration_years.
  destruct (year_field (start_date e)); [|lia].
  destruct (if PyStr.mem _ _ then _ else _); lia.
Qed.

(** X13.  The total experience does not depend on the order of the entries,
    and is at least the duration of each single entry, which is never
    negative. *)
Theorem total_experience_order_independent
        (now_year : Z) (cv cv' : CVData) :
  Permutation (experience cv) (experience cv') ->
  get_total_experience_years now_year cv
  = get_total_experience_years now_year cv'
  /\ forall e, In e (experience cv) ->
               0 <= get_duration_years now_year e
               <= get_total_experience_years now_year cv'.
Proof.
  intro Hperm. unfold get_total_experience_years. rewrite !total_years_sum.
  assert (Hsum : forall l l', Permutation l l' ->
             fold_right Z.add 0 (map (get_duration_years now_year) l)
             = fold_right Z.add 0 (map (get_duration_years now_year) l')).
  { induction 1; cbn [map fold_right]; lia. }
  split; [now rewrite (Hsum _ _ Hperm)|].
  rewrite <- (Hsum _ _ Hperm). clear Hperm Hsum.
  induction (experience cv) as [|x l IH]; intros e; [intros []|].
  cbn [map fold_right]. pose proof (duration_nonneg now_year x).
  assert (Hl : 0 <= fold_right Z.add 0 (map (get_duration_years now_year) l)).
  { clear IH. induction l as [|y l IHl]; cbn [map fold_right]; [lia|].
    pose proof (duration_nonneg now_year y). lia. }
  intros [<-|Hin]; [lia|]. specialize (IH e Hin). lia.
Qed.

Lemma total_experience_order_independent_witness :
  Permutation
    (experience (Samples.candidate "A" []
                   [Samples.job "Dev" "X" "2010" "2012" "";
                    Samples.job "Lead" "Y" "2012" "Present" ""] []))
    (experience (Samples.candidate "B" []
                   [Samples.job "Lead" "Y" "2012" "Present" "";
                    Samples.job "Dev" "X" "2010" "2012" ""] []))
  /\ get_total_experience_years 2026
       (Samples.candidate "A" []
          [Samples.job "Dev" "X" "2010" "2012" "";
           Samples.job "Lead" "Y" "2012" "Present" ""] [])
     = get_total_experience_years 2026
         (Samples.candidate "B" []
            [Samples.job "Lead" "Y" "2012" "Present" "";
             Samples.job "Dev" "X" "2010" "2012" ""] [])
  /\ forall e,
       In e (experience (Samples.candidate "A" []
                           [Samples.job "Dev" "X" "2010" "2012" "";
                            Samples.job "Lead" "Y" "2012" "Present" ""] [])) ->
       0 <= get_duration_years 2026 e
       <= get_total_experience_years 2026
            (Samples.candidate "B" []
               [Samples.job "Lead" "Y" "2012" "Present" "";
                Samples.job "Dev" "X" "2010" "2012" ""] []).
Proof.
  assert (H : Permutation
                (experience (Samples.candidate "A" []
                               [Samples.job "Dev" "X" "2010" "2012" "";
                                Samples.job "Lead" "Y" "2012" "Present" ""] []))
                (experience (Samples.candidate "B" []
                               [Samples.job "Lead" "Y" "2012" "Present" "";
                                Samples.job "Dev" "X" "2010" "2012" ""] [])))
    by apply perm_swap.
  split; [exact H|].
  apply (total_experience_order_independent 2026 _ _ H).
Defined.

(** ** [get_skills_by_category] *)

Lemma dict_get_set_eq {V : Type} (k : string) (v : V) (d : list (string * V)) :
  dict_get k (dict_set k v d) = Some v.
Proof.
  induction d as [|[k' v'] d IH]; cbn [dict_set dict_get].
  - now rewrite String.eqb_refl.
  - destruct (String.eqb k k') eqn:E; cbn [dict_get]; rewrite ?E.
    + now rewrite String.eqb_refl.
    + exact IH.
Qed.

Lemma dict_get_set_ne {V : Type} (k k0 : string) (v : V)
      (d : list (string * V)) :
  k <> k0 -> dict_get k (dict_set k0 v d) = dict_get k d.
Proof.
  intro Hne. induction d as [|[k' v'] d IH]; cbn [dict_set dict_get].
  - destruct (String.eqb_spec k k0); [contradiction|reflexivity].
  - destruct (String.eqb_spec k0 k') as [<-|Hk]; cbn [dict_get].
    + destruct (String.eqb_spec k k0); [contradiction|reflexivity].
    + now rewrite IH.
Qed.

Lemma dict_get_in_keys {V : Type} (k : string) (d : list (string * V)) :
  dict_get k d = None <-> ~ In k (dict_keys d).
Proof.
  induction d as [|[k' v'] d IH]; cbn [dict_get dict_keys map fst].
  - split; [intros _ []|reflexivity].
  - destruct (String.eqb_spec k k') as [->|Hne].
    + split; [discriminate|]. intro H. exfalso. apply H. now left.
    + rewrite IH. unfold dict_keys. split.
      * intros H [E|E]; [now symmetry in E|contradiction].
      * intros H E. apply H. now right.
Qed.

Lemma dict_set_keys_NoDup {V : Type} (k : string) (v : V)
      (d : list (string * V)) :
  NoDup (dict_keys d) -> NoDup (dict_keys (dict_set k v d)).
Proof.
  intro Hnd. destruct (dict_get k d) eqn:Hget.
  - enough (H : dict_keys (dict_set k v d) = dict_keys d) by now rewrite H.
    clear Hnd. induction d as [|[k' v'] d IH]; [discriminate|].
    cbn [dict_set dict_get] in *. destruct (String.eqb_spec k k') as [->|Hne].
    + reflexivity.
    + cbn [dict_keys map fst] in *. f_equal. now apply IH.
  - apply dict_get_in_keys in Hget.
    rewrite dict_set_fresh by exact Hget. unfold dict_keys in *.
    rewrite map_app. cbn [map fst]. now apply NoDup_snoc.
Qed.

Lemma some_if_nonempty_None {A : Type} (l : list A) :
  some_if_nonempty l = None -> l = [].
Proof. now destruct l. Qed.

Lemma some_if_nonempty_Some {A : Type} (l l' : list A) :
  some_if_nonempty l = Some l' -> l = l'.
Proof. destruct l; [discriminate|]. now intros [= <-]. Qed.

Lemma skill_names_of_category_snoc (c : string) (l : list Skill) (s : Skill) :
  skill_names_of_category c (l ++ [s])
  = (skill_names_of_category c l
     ++ if String.eqb (category s) c then [skill_name s] else [])%list.
Proof.
  unfold skill_names_of_category. rewrite filter_app, map_app. cbn [filter].
  now destruct (String.eqb (category s) c).
Qed.

(** X14.  In the dict returned by [get_skills_by_category], a category that
    some skill has maps to the names of the skills of that category, in the
    order in which the skills are listed; any other key is absent.  Each
    category is one key. *)
Theorem skills_by_category_lookup (cv : CVData) (c : string) :
  dict_get c (get_skills_by_category cv)
  = some_if_nonempty (skill_names_of_category c (skills cv))
  /\ NoDup (dict_keys (get_skills_by_category cv)).
Proof.
  unfold get_skills_by_category.
  enough (H : forall l done acc,
             (forall k, dict_get k acc
                        = some_if_nonempty (skill_names_of_category k done)) ->
             NoDup (dict_keys acc) ->
             (forall k,
                 dict_get k
                   (fold_left
                      (fun by_category skill =>
                         let by_category :=
                           match dict_get (category skill) by_category with
                           | None => dict_set (category skill) [] by_category
                           | Some _ => by_category
                           end in
                         match dict_get (category skill) by_category with
                         | Some names =>
                             dict_set (category skill)
                               (names ++ [skill_name skill])%list by_category
                         | None => by_category
                         end) l acc)
                 = some_if_nonempty (skill_names_of_category k (done ++ l)))
             /\ NoDup (dict_keys
                         (fold_left
                            (fun by_category skill =>
                               let by_category :=
                                 match dict_get (category skill) by_category with
                                 | None => dict_set (category skill) [] by_category
                                 | Some _ => by_category
                                 end in
                               match dict_get (category skill) by_category with
                               | Some names =>
                                   dict_set (category skill)
                                     (names ++ [skill_name skill])%list by_category
                               | None => by_category
                               end) l acc))).
  { destruct (H (skills cv) [] []) as [H1 H2];
      [reflexivity|constructor|]. split; [apply H1|exact H2]. }
  induction l as [|s l IH]; intros done acc Hinv Hnd; cbn [fold_left].
  - rewrite app_nil_r. now split.
  - cbv zeta.
    replace (done ++ s :: l)%list with ((done ++ [s]) ++ l)%list
      by (now rewrite <- app_assoc).
    pose proof (Hinv (category s)) as Hk.
    destruct (dict_get (category s) acc) as [names|] eqn:Hget.
    + rewrite Hget. symmetry in Hk. apply some_if_nonempty_Some in Hk.
      apply IH.
      * intro k. rewrite skill_names_of_category_snoc.
        destruct (String.eqb_spec (category s) k) as [<-|Hne].
        -- rewrite dict_get_set_eq, Hk.
           now destruct names.
        -- rewrite dict_get_set_ne by congruence. rewrite app_nil_r. apply Hinv.
      * now apply dict_set_keys_NoDup.
    + rewrite dict_get_set_eq. symmetry in Hk.
      apply some_if_nonempty_None in Hk.
      apply IH.
      * intro k. rewrite skill_names_of_category_snoc.
        destruct (String.eqb_spec (category s) k) as [<-|Hne].
        -- rewrite dict_get_set_eq, Hk. reflexivity.
        -- rewrite !dict_get_set_ne by congruence. rewrite app_nil_r. apply Hinv.
      * now apply dict_set_keys_NoDup, dict_set_keys_NoDup.
Qed.

(** ** [to_searchable_text] *)

Lemma contains_here (a x b : string) : PyStr.contains x (a ++ x ++ b) = true.
Proof. apply contains_spec. now exists a, b. Qed.

Lemma contains_at_end (a x : string) : PyStr.contains x (a ++ x) = true.
Proof.
  apply contains_spec. exists a, "". now rewrite string_app_empty_r.
Qed.

Lemma contains_trans (x y z : string) :
  PyStr.contains x y = true -> PyStr.contains y z = true ->
  PyStr.contains x z = true.
Proof.
  rewrite !contains_spec. intros [a [b ->]] [c [d ->]].
  exists (c ++ a), (b ++ d). now rewrite !string_app_assoc.
Qed.

Lemma contains_join (sep part : string) (l : list string) :
  In part l -> PyStr.contains part (PyStr.join sep l) = true.
Proof.
  unfold PyStr.join. induction l as [|x l IH]; [intros []|].
  intros [->|Hin].
  - cbn [String.concat]. destruct l.
    + apply (contains_at_end "" part).
    + apply (contains_here "" part).
  - specialize (IH Hin). cbn [String.concat]. destruct l as [|y l]; [destruct Hin|].
    apply (contains_trans _ _ _ IH).
    apply contains_spec. exists (x ++ sep), "".
    now rewrite string_app_empty_r, string_app_assoc.
Qed.

Lemma contains_part_of_text (x part : string) (cv : CVData) (parts : list string) :
  to_searchable_text cv = PyStr.join newline parts ->
  In part parts -> PyStr.contains x part = true ->
  PyStr.contains x (to_searchable_text cv) = true.
Proof.
  intros -> Hin Hx. apply (contains_trans _ _ _ Hx). now apply contains_join.
Qed.

Lemma experience_line_mentions (e : Experience) :
  PyStr.contains (job_title e) (experience_line e) = true
  /\ PyStr.contains (company e) (experience_line e) = true
  /\ PyStr.contains (description e) (experience_line e) = true.
Proof.
  unfold experience_line. cbv zeta.
  destruct (description e) as [|c d] eqn:Hd; cbn [PyStr.is_empty].
  - repeat split.
    + apply (contains_here "Experience: " (job_title e)).
    + apply contains_spec. exists ("Experience: " ++ job_title e ++ " at "), "".
      now rewrite string_app_empty_r, !string_app_assoc.
  - repeat split.
    + apply contains_spec. exists "Experience: ".
      eexists. rewrite !string_app_assoc. reflexivity.
    + apply contains_spec. exists ("Experience: " ++ job_title e ++ " at ").
      eexists. rewrite !string_app_assoc. reflexivity.
    + apply contains_spec.
      exists ("Experience: " ++ job_title e ++ " at " ++ company e ++ " - "), "".
      now rewrite string_app_empty_r, !string_app_assoc.
Qed.

Lemma education_line_mentions (edu : Education) :
  PyStr.contains (degree edu) (education_line edu) = true
  /\ PyStr.contains (institution edu) (education_line edu) = true
  /\ PyStr.contains (field_of_study edu) (education_line edu) = true.
Proof.
  assert (Hempty : forall s, PyStr.contains "" s = true) by (now destruct s).
  unfold education_line. cbv zeta.
  destruct (institution edu) as [|c1 i] eqn:Hi;
    destruct (field_of_study edu) as [|c2 f] eqn:Hf; cbn [PyStr.is_empty];
    repeat split; try apply Hempty; apply contains_spec.
  - exists "Education: ", "". now rewrite string_app_empty_r.
  - exists "Education: ". eexists. rewrite !string_app_assoc. reflexivity.
  - exists ("Education: " ++ degree edu ++ " in "), "".
    now rewrite string_app_empty_r, !string_app_assoc.
  - exists "Education: ". eexists. rewrite !string_app_assoc. reflexivity.
  - exists ("Education: " ++ degree edu ++ " from "), "".
    now rewrite string_app_empty_r, !string_app_assoc.
  - exists "Education: ". eexists. rewrite !string_app_assoc. reflexivity.
  - exists ("Education: " ++ degree edu ++ " from "). eexists.
    rewrite !string_app_assoc. reflexivity.
  - exists ("Education: " ++ degree edu ++ " from " ++ String c1 i ++ " in "), "".
    now rewrite string_app_empty_r, !string_app_assoc.
Qed.

(** X15.  The searchable text of a CV contains, as substrings, the name and
    the location of the candidate, the name of every skill, the title,
    company and description of every experience entry, and the degree,
    institution and field of study of every education entry. *)
Theorem searchable_text_mentions (cv : CVData) :
  PyStr.contains (name (personal_info cv)) (to_searchable_text cv) = true
  /\ PyStr.contains (location (personal_info cv)) (to_searchable_text cv) = true
  /\ (forall s, In s (skills cv) ->
                PyStr.contains (skill_name s) (to_searchable_text cv) = true)
  /\ (forall e, In e (experience cv) ->
                PyStr.contains (job_title e) (to_searchable_text cv) = true
                /\ PyStr.contains (company e) (to_searchable_text cv) = true
                /\ PyStr.contains (description e) (to_searchable_text cv) = true)
  /\ (forall edu, In edu (education cv) ->
                  PyStr.contains (degree edu) (to_searchable_text cv) = true
                  /\ PyStr.contains (institution edu) (to_searchable_text cv) = true
                  /\ PyStr.contains (field_of_study edu) (to_searchable_text cv)
                     = true).
Proof.
  assert (Hempty : forall s, PyStr.contains "" s = true) by (now destruct s).
  pose proof (eq_refl (to_searchable_text cv)) as Htext.
  unfold to_searchable_text at 2 in Htext. cbv zeta in Htext.
  split; [|split; [|split; [|split]]].
  - destruct (name (personal_info cv)) as [|c n] eqn:Hn; [apply Hempty|].
    cbn [PyStr.is_empty] in Htext.
    apply (contains_part_of_text _ ("Name: " ++ String c n) cv _ Htext).
    + now left.
    + apply (contains_at_end "Name: " (String c n)).
  - destruct (location (personal_info cv)) as [|c n] eqn:Hn; [apply Hempty|].
    cbn [PyStr.is_empty] in Htext.
    apply (contains_part_of_text _ ("Location: " ++ String c n) cv _ Htext).
    + apply in_or_app. right. now left.
    + apply (contains_at_end "Location: " (String c n)).
  - intros s Hs. destruct (skills cv) as [|s0 l] eqn:Hskills; [destruct Hs|].
    apply (contains_part_of_text _
             ("Skills: " ++ PyStr.join ", " (map skill_name (s0 :: l))) cv _ Htext).
    + apply in_or_app. right. apply in_or_app. right. now left.
    + apply contains_trans with (PyStr.join ", " (map skill_name (s0 :: l))).
      * apply contains_join. now apply in_map.
      * apply (contains_at_end "Skills: ").
  - intros e He. destruct (experience_line_mentions e) as [H1 [H2 H3]].
    repeat split;
      (apply (contains_part_of_text _ (experience_line e) cv _ Htext);
       [do 3 (apply in_or_app; right); apply in_or_app; left; now apply in_map
       |assumption]).
  - intros edu Hedu. destruct (education_line_mentions edu) as [H1 [H2 H3]].
    repeat split;
      (apply (contains_part_of_text _ (education_line edu) cv _ Htext);
       [do 4 (apply in_or_app; right); now apply in_map|assumption]).
Qed.

(** ** The requirement extractor, continued *)

Lemma all_of_drop (cls : ascii -> bool) (n : nat) (s : string) :
  PyStr.all_of cls s = true -> PyStr.all_of cls (Re.drop n s) = true.
Proof.
  revert s. induction n as [|n IH]; intros s H; [now destruct s|].
  destruct s as [|c s]; [exact H|]. cbn [Re.drop].
  cbn [PyStr.all_of] in H. apply andb_true_iff in H as [_ H]. now apply IH.
Qed.

Lemma all_of_app_r (cls : ascii -> bool) (a b : string) :
  PyStr.all_of cls (a ++ b) = true -> PyStr.all_of cls b = true.
Proof.
  induction a as [|c a IH]; cbn; [auto|].
  intro H. apply andb_true_iff in H as [_ H]. now apply IH.
Qed.

Lemma group_needs_class (cls : ascii -> bool) (r : Re.regex) (s g : string)
      (k : string -> string -> option string) (x : string) :
  Re.run (Re.Seq (Re.Group (Re.Plus cls)) r) s g k = Some x ->
  exists c s', s = String c s' /\ cls c = true.
Proof.
  cbn [Re.run]. destruct s as [|c s]; [discriminate|].
  destruct (cls c) eqn:Hc; [|discriminate]. intros _. now exists c, s.
Qed.

Lemma pattern_match_needs_digit (p : Re.regex) (t g : string) :
  In p experience_patterns ->
  Re.match_here p t = Some g ->
  PyStr.all_of is_not_digit t = false.
Proof.
  assert (Hdigit : forall c s, PyStr.is_digit c = true ->
                               PyStr.all_of is_not_digit (String c s) = false).
  { intros c s Hc. cbn [PyStr.all_of]. unfold is_not_digit at 1. now rewrite Hc. }
  intros Hp Ht. unfold Re.match_here in Ht.
  destruct Hp as [<-|[<-|[<-|[]]]].
  - apply group_needs_class in Ht as [c [s' [-> Hc]]]. now apply Hdigit.
  - apply group_needs_class in Ht as [c [s' [-> Hc]]]. now apply Hdigit.
  - unfold pattern_minimum_years in Ht. cbn [Re.run] in Ht.
    destruct (String.prefix "minimum" t); [|discriminate].
    apply star_continues in Ht as [pre [rest [Hdrop [_ Ht]]]].
    destruct rest as [|c s']; [discriminate|].
    destruct (PyStr.is_digit c) eqn:Hc; [|discriminate].
    destruct (PyStr.all_of is_not_digit t) eqn:Hall; [|reflexivity].
    apply (all_of_drop _ (String.length "minimum")) in Hall.
    rewrite Hdrop in Hall. apply all_of_app_r in Hall.
    now rewrite (Hdigit c s' Hc) in Hall.
Qed.

Lemma lower_keeps_non_digits (s : string) :
  PyStr.all_of is_not_digit (PyStr.lower s) = PyStr.all_of is_not_digit s.
Proof.
  induction s as [|c s IH]; [reflexivity|].
  cbn [PyStr.lower PyStr.all_of]. rewrite IH. f_equal.
  destruct c as [[] [] [] [] [] [] [] []]; reflexivity.
Qed.

(** X16.  A job description that contains no decimal digit states no
    experience requirement: the extractor returns, and the required years
    are 0. *)
Theorem no_digit_no_required_years
        (set_iter : list string -> list string) (jd : string) :
  PyStr.all_of is_not_digit jd = true ->
  exists reqs,
    _extract_job_requirements set_iter jd = Ok reqs
    /\ required_experience_years reqs = 0.
Proof.
  intro Hjd. rewrite <- lower_keeps_non_digits in Hjd.
  assert (Hnone : forall p, In p experience_patterns ->
                            Re.search p (PyStr.lower jd) = None).
  { intros p Hp. induction (PyStr.lower jd) as [|c s IH]; cbn [Re.search].
    - destruct (Re.match_here p "") as [g|] eqn:E; [|reflexivity].
      apply (pattern_match_needs_digit p _ g Hp) in E. discriminate.
    - destruct (Re.match_here p (String c s)) as [g|] eqn:E.
      + apply (pattern_match_needs_digit p _ g Hp) in E. congruence.
      + apply IH. cbn [PyStr.all_of] in Hjd.
        now apply andb_true_iff in Hjd as [_ Hjd]. }
  unfold _extract_job_requirements, extract_experience_years,
    experience_patterns.
  cbn [fold_left bind].
  rewrite !Hnone by (cbn; auto). cbn [bind]. eexists. split; reflexivity.
Qed.

Lemma no_digit_no_required_years_witness :
  PyStr.all_of is_not_digit Samples.senior_job = true
  /\ exists reqs,
       _extract_job_requirements Samples.insertion_order Samples.senior_job
       = Ok reqs
       /\ required_experience_years reqs = 0.
Proof.
  split; [reflexivity|].
  apply (no_digit_no_required_years Samples.insertion_order Samples.senior_job).
  reflexivity.
Defined.

Lemma lower_idempotent (s : string) : PyStr.lower (PyStr.lower s) = PyStr.lower s.
Proof.
  induction s as [|c s IH]; [reflexivity|].
  cbn [PyStr.lower]. rewrite IH. f_equal.
  destruct c as [[] [] [] [] [] [] [] []]; reflexivity.
Qed.

(** X17.  The extractor ignores letter case: the job description and its
    lower-cased form make it end the same way, and when it returns they give
    the same required skills, required years, degree flag and seniority
    flag. *)
Theorem extraction_ignores_case
        (set_iter : list string -> list string) (jd : string) :
  result_map required_skills
    (_extract_job_requirements set_iter (PyStr.lower jd))
  = result_map required_skills (_extract_job_requirements set_iter jd)
  /\ result_map required_experience_years
       (_extract_job_requirements set_iter (PyStr.lower jd))
     = result_map required_experience_years
         (_extract_job_requirements set_iter jd)
  /\ result_map requires_degree
       (_extract_job_requirements set_iter (PyStr.lower jd))
     = result_map requires_degree (_extract_job_requirements set_iter jd)
  /\ result_map is_senior_role
       (_extract_job_requirements set_iter (PyStr.lower jd))
     = result_map is_senior_role (_extract_job_requirements set_iter jd).
Proof.
  rewrite !extraction_cases. unfold number_too_long.
  rewrite !lower_idempotent.
  destruct (existsb _ experience_patterns); repeat split.
Qed.

(** ** Witnesses for the properties stated earlier *)

Lemma extracted_skills_distinct_witness :
  (forall l, Permutation (Samples.reverse_order l) l)
  /\ if number_too_long Samples.python_and_java_job
     then _extract_job_requirements Samples.reverse_order
            Samples.python_and_java_job
          = Raise ValueError
     else
       exists reqs,
         _extract_job_requirements Samples.reverse_order
           Samples.python_and_java_job
         = Ok reqs
         /\ Permutation (required_skills reqs)
              (filter (fun skill =>
                         PyStr.contains skill
                           (PyStr.lower Samples.python_and_java_job))
                      vocabulary)
         /\ NoDup (required_skills reqs).
Proof.
  assert (H : forall l, Permutation (Samples.reverse_order l) l)
    by (intro l; symmetry; apply Permutation_rev).
  split; [exact H|].
  apply (extracted_skills_distinct Samples.reverse_order
           Samples.python_and_java_job H).
Defined.

Lemma find_matches_results_well_scored_witness :
  find_matches Samples.no_similarity 2026 Samples.insertion_order ""
    [ValidDict Samples.newcomer] 5 false
  = Ok [Samples.newcomer_result]
  /\ In Samples.newcomer_result [Samples.newcomer_result]
  /\ in_unit_interval (skill_match_score Samples.newcomer_result)
  /\ in_unit_interval (experience_match_score Samples.newcomer_result)
  /\ in_unit_interval (education_match_score Samples.newcomer_result)
  /\ in_unit_interval (overall_score Samples.newcomer_result)
  /\ overall_score Samples.newcomer_result
     = weighted_overall (skill_match_score Samples.newcomer_result)
         (experience_match_score Samples.newcomer_result)
         (education_match_score Samples.newcomer_result).
Proof.
  assert (H : find_matches Samples.no_similarity 2026 Samples.insertion_order ""
                [ValidDict Samples.newcomer] 5 false
              = Ok [Samples.newcomer_result])
    by (vm_compute; reflexivity).
  assert (Hin : In Samples.newcomer_result [Samples.newcomer_result])
    by (left; reflexivity).
  split; [exact H|]. split; [exact Hin|].
  apply (find_matches_results_well_scored Samples.no_similarity 2026
           Samples.insertion_order "" [ValidDict Samples.newcomer] 5 false
           [Samples.newcomer_result] Samples.newcomer_result H Hin).
Defined.

Lemma find_matches_explanation_independent_witness :
  (forall cv,
      In (ValidDict cv) [ValidDict Samples.ann; ValidDict Samples.bob] ->
      get_total_experience_years 2026 cv < FLOAT_OVERFLOW)
  /\ result_map (map without_explanation)
       (find_matches Samples.no_similarity 2026 Samples.insertion_order
          Samples.senior_python_job
          [ValidDict Samples.ann; ValidDict Samples.bob] 5 true)
     = result_map (map without_explanation)
         (find_matches Samples.no_similarity 2026 Samples.insertion_order
            Samples.senior_python_job
            [ValidDict Samples.ann; ValidDict Samples.bob] 5 false).
Proof.
  assert (H : forall cv,
             In (ValidDict cv) [ValidDict Samples.ann; ValidDict Samples.bob] ->
             get_total_experience_years 2026 cv < FLOAT_OVERFLOW).
  { intros cv [E|[E|[]]]; injection E as <-; vm_compute; reflexivity. }
  split; [exact H|].
  apply (find_matches_explanation_independent Samples.no_similarity 2026
           Samples.insertion_order Samples.senior_python_job
           [ValidDict Samples.ann; ValidDict Samples.bob] 5 H).
Defined.
